(** * open-fdd report classes: FaultCodeOneReport and FaultCodeTwoReport

    A shallow embedding of [reports/__init__.py].  The two report classes
    summarise a time-indexed dataframe that carries a fault flag column,
    draw two figures and assemble a docx document.

    Conventions of the embedding:
    - a timestamp of the [DatetimeIndex] is its number of nanoseconds since
      the epoch (timezone-naive), a [Timedelta] its number of nanoseconds,
      [NaT] is [None]; the 64-bit range of both is not modelled;
    - a Python/NumPy float is [NaN] or a rational: the NaN propagation and
      the comparisons follow IEEE 754 (every comparison with NaN is false),
      the arithmetic is exact (binary rounding error and infinities are
      outside the model), but for the standard deviation, which the report
      compares with 0 and which is therefore computed in binary64, operation
      by operation as pandas computes it;
    - a pandas [Series] is a homogeneous list of bool, int or float cells;
    - [print] and the rendering of a figure to PNG bytes are not modelled:
      a picture of the document holds the figure it was rendered from;
    - [time.ctime()] is an input of [create_report]. *)

From Stdlib Require Import ZArith QArith Qround Qminmax List String Bool Lia Lqa.
From Stdlib Require PrimFloat FloatOps SpecFloat.
Import ListNotations.
Local Open Scope string_scope.
Local Open Scope list_scope.
Local Open Scope Z_scope.

(** ** Floats *)

Inductive float : Type :=
| NaN
| Fin (q : Q).

(** [math.isnan] *)
Definition isnan (x : float) : bool :=
  match x with NaN => true | Fin _ => false end.


Definition fsub (x y : float) : float :=
  match x, y with Fin a, Fin b => Fin (a - b) | _, _ => NaN end.

Definition fmul (x y : float) : float :=
  match x, y with Fin a, Fin b => Fin (a * b) | _, _ => NaN end.

(** [x == y], [x < y], [x > y] on floats. *)
Definition feq (x y : float) : bool :=
  match x, y with Fin a, Fin b => Qeq_bool a b | _, _ => false end.

Definition flt (x y : float) : bool :=
  match x, y with Fin a, Fin b => negb (Qle_bool b a) | _, _ => false end.

Definition fgt (x y : float) : bool := flt y x.



Definition of_int (z : Z) : float := Fin (inject_Z z).

(** Round half to even, to the nearest integer. *)
Definition rint (q : Q) : Z :=
  let f := Qfloor q in
  match (q - inject_Z f ?= 1 # 2)%Q with
  | Lt => f
  | Gt => f + 1
  | Eq => if Z.even f then f else f + 1
  end.

(** [round(x, ndigits)] *)
Definition round (x : float) (ndigits : nat) : float :=
  match x with
  | NaN => NaN
  | Fin q =>
      let p := inject_Z (10 ^ Z.of_nat ndigits) in
      Fin (inject_Z (rint (q * p)) / p)
  end.

(** ** Timedeltas *)

Definition Timedelta : Type := option Z.

(** [pd.Timedelta(hours=1)] and [pd.Timedelta(days=1)], in nanoseconds. *)
Definition Timedelta_hours_1 : positive := 3600000000000.
Definition Timedelta_days_1 : positive := 86400000000000.

(** [a / b] for two Timedeltas, [b] a positive constant. *)
Definition td_truediv (a : Z) (b : positive) : float := Fin (a # b).

Fixpoint diff_from (prev : Z) (l : list Z) : list Timedelta :=
  match l with
  | [] => []
  | t :: r => Some (t - prev) :: diff_from t r
  end.

(** [df.index.to_series().diff()]: the first row has no predecessor. *)
Definition diff (l : list Z) : list Timedelta :=
  match l with
  | [] => []
  | t :: r => None :: diff_from t r
  end.

(** [.sum()] of a timedelta series: NaT is skipped, the empty sum is
    [Timedelta(0)]. *)
Fixpoint td_sum (l : list Timedelta) : Z :=
  match l with
  | [] => 0
  | None :: r => td_sum r
  | Some d :: r => d + td_sum r
  end.

(** ** Series *)

Inductive Series : Type :=
| SBool (l : list bool)
| SInt (l : list Z)
| SFloat (l : list float).

Definition size (s : Series) : nat :=
  match s with
  | SBool l => List.length l
  | SInt l => List.length l
  | SFloat l => List.length l
  end.

(** The cells of a series as floats. *)
Definition values (s : Series) : list float :=
  match s with
  | SBool l => map (fun b => of_int (Z.b2z b)) l
  | SInt l => map of_int l
  | SFloat l => l
  end.

Fixpoint dropna (l : list float) : list Q :=
  match l with
  | [] => []
  | NaN :: r => dropna r
  | Fin q :: r => q :: dropna r
  end.

Definition qsum (l : list Q) : Q := fold_right Qplus 0%Q l.

Definition qlen (l : list Q) : Q := inject_Z (Z.of_nat (List.length l)).

(** [.mean()]: NaN cells are skipped; NaN when nothing is left. *)
Definition nanmean (l : list float) : float :=
  match dropna l with
  | [] => NaN
  | v => Fin (qsum v / qlen v)
  end.

Definition mean (s : Series) : float := nanmean (values s).

(** [.var()] with the default [ddof=1], in exact arithmetic: NaN unless two
    cells are left. *)
Definition nanvar (l : list float) : float :=
  let v := dropna l in
  if (List.length v <=? 1)%nat then NaN
  else
    let m := (qsum v / qlen v)%Q in
    Fin (qsum (map (fun x => (x - m) * (x - m))%Q v) / (qlen v - 1)).

(** *** The standard deviation in binary64

    [std() == 0] is a comparison for equality, and rounding decides it: the
    mean of three cells 0.1 is not 0.1 in binary64, and the standard
    deviation of that constant column is 1.7e-17, not 0.  The standard
    deviation is therefore computed on binary64 numbers, with the
    operations and in the order of pandas' [nanops.nanvar] and of the sum
    of a NumPy array. *)

Definition binary64 : Set := PrimFloat.float.

(** The binary64 number nearest to an integer (ties to even). *)
Definition binary64_of_Z (z : Z) : binary64 :=
  FloatOps.SF2Prim
    (SpecFloat.binary_normalize FloatOps.prec FloatOps.emax z 0 false).

(** The binary64 number of a cell: the quotient of two integers, rounded
    once when both are binary64 numbers. *)
Definition binary64_of_Q (q : Q) : binary64 :=
  PrimFloat.div (binary64_of_Z (Qnum q)) (binary64_of_Z (Zpos (Qden q))).

Fixpoint zip_add (r x : list binary64) : list binary64 :=
  match r, x with
  | a :: r', b :: x' => PrimFloat.add a b :: zip_add r' x'
  | _, _ => []
  end.

(** The loop of [pairwise_sum] over the blocks of 8 numbers that follow the
    first one: each of the 8 accumulators takes one number of the block. *)
Fixpoint add_blocks (fuel : nat) (r rest : list binary64)
  : list binary64 * list binary64 :=
  match fuel with
  | O => (r, rest)
  | S f =>
      if (8 <=? List.length rest)%nat
      then add_blocks f (zip_add r (firstn 8 rest)) (skipn 8 rest)
      else (r, rest)
  end.

(** 8 to 128 numbers: 8 accumulators, added two by two, then the numbers
    left over one by one. *)
Definition sum_unrolled (l : list binary64) : binary64 :=
  let '(r, rest) := add_blocks (List.length l) (firstn 8 l) (skipn 8 l) in
  match r with
  | [r0; r1; r2; r3; r4; r5; r6; r7] =>
      fold_left PrimFloat.add rest
        (PrimFloat.add
           (PrimFloat.add (PrimFloat.add r0 r1) (PrimFloat.add r2 r3))
           (PrimFloat.add (PrimFloat.add r4 r5) (PrimFloat.add r6 r7)))
  | _ => fold_left PrimFloat.add l PrimFloat.zero
  end.

(** NumPy's [pairwise_sum]: fewer than 8 numbers are added one by one, up
    to 128 with 8 accumulators, more are split in two halves, the first of
    a length that is a multiple of 8. *)
Fixpoint pairwise_sum (fuel : nat) (l : list binary64) : binary64 :=
  let n := List.length l in
  if (n <? 8)%nat then fold_left PrimFloat.add l PrimFloat.zero
  else if (n <=? 128)%nat then sum_unrolled l
  else
    match fuel with
    | O => sum_unrolled l
    | S f =>
        let n2 := (n / 2 - (n / 2) mod 8)%nat in
        PrimFloat.add (pairwise_sum f (firstn n2 l))
          (pairwise_sum f (skipn n2 l))
    end.

(** [a.sum()] of a one-dimensional array of binary64 numbers. *)
Definition np_sum (l : list binary64) : binary64 :=
  PrimFloat.add PrimFloat.zero (pairwise_sum (List.length l) l).

(** [.std()], that is [nanops.nanstd] with [ddof=1]: NaN unless two cells
    are left; the missing cells count as 0 in the two sums and not in the
    two counts; [avg = sum / count], then
    [sqrt (sum ((avg - x) ** 2) / (count - 1))]. *)
Definition std (s : Series) : binary64 :=
  let cells := values s in
  let count := List.length (dropna cells) in
  if (count <=? 1)%nat then PrimFloat.nan
  else
    let x :=
      map (fun c => match c with
                    | NaN => PrimFloat.zero
                    | Fin q => binary64_of_Q q
                    end) cells in
    let avg := PrimFloat.div (np_sum x) (binary64_of_Z (Z.of_nat count)) in
    let sqr :=
      map (fun c => match c with
                    | NaN => PrimFloat.zero
                    | Fin q =>
                        let e := PrimFloat.sub avg (binary64_of_Q q) in
                        PrimFloat.mul e e
                    end) cells in
    PrimFloat.sqrt
      (PrimFloat.div (np_sum sqr) (binary64_of_Z (Z.of_nat (count - 1)))).

(** [.std() == 0]: false when the standard deviation is NaN. *)
Definition std_eq_0 (s : Series) : bool := PrimFloat.eqb (std s) PrimFloat.zero.

(** [s == 1], cell by cell. *)
Definition eq_1 (s : Series) : list bool :=
  match s with
  | SBool l => l
  | SInt l => map (fun z => z =? 1) l
  | SFloat l => map (fun x => feq x (Fin 1)) l
  end.

Fixpoint where_ (l : list float) (cond : list bool) : list float :=
  match l, cond with
  | x :: r, c :: cs => (if c then x else NaN) :: where_ r cs
  | _, _ => []
  end.

(** [s.where(cond)]: the cells where [cond] fails become NaN. *)
Definition Series_where (s : Series) (cond : list bool) : Series :=
  SFloat (where_ (values s) cond).

(** Truncation towards zero, the cast of a float to an integer. *)
Definition Qtrunc (q : Q) : Z := Z.quot (Qnum q) (Zpos (Qden q)).

Fixpoint all_finite (l : list float) : bool :=
  match l with
  | [] => true
  | NaN :: _ => false
  | Fin _ :: r => all_finite r
  end.

(** The multiplication of a timedelta cell by a flag cell. *)
Definition td_scale (d : Timedelta) (w : float) : Timedelta :=
  match d, w with
  | Some ns, Fin q => Some (Qtrunc (inject_Z ns * q))
  | _, _ => None
  end.

Fixpoint td_mul_cells (delta : list Timedelta) (w : list float)
  : list Timedelta :=
  match delta, w with
  | d :: ds, x :: xs => td_scale d x :: td_mul_cells ds xs
  | _, _ => []
  end.

(** [delta * s] for a timedelta series and a numeric series on the same
    index. *)
Definition td_mul (delta : list Timedelta) (s : Series) : list Timedelta :=
  td_mul_cells delta (values s).

(** ** Exceptions and the state monad of the report code *)

Inductive exn : Type :=
| KeyError (key : string)
| IntCastingNaNError.

Inductive result (A : Type) : Type :=
| Ok (a : A)
| Raise (e : exn).

Arguments Ok {A} a.
Arguments Raise {A} e.

(** A computation on a mutable state [S]: the state at the point where an
    exception is raised is kept, as the caller of the Python code sees it. *)
Definition M (S A : Type) : Type := S -> result A * S.

Definition ret {S A} (a : A) : M S A := fun s => (Ok a, s).

Definition raise {S A} (e : exn) : M S A := fun s => (Raise e, s).

Definition bind {S A B} (m : M S A) (k : A -> M S B) : M S B :=
  fun s =>
    match m s with
    | (Ok a, s') => k a s'
    | (Raise e, s') => (Raise e, s')
    end.

Definition lift {S A} (r : result A) : M S A := fun s => (r, s).

Declare Scope monad_scope.
Delimit Scope monad_scope with monad.
Notation "x <- m ;; k" := (bind m (fun x => k))
  (at level 61, m at next level, right associativity) : monad_scope.
Notation "m ;; k" := (bind m (fun _ => k))
  (at level 61, right associativity) : monad_scope.

(** The exception-only fragment, for code that reads and never writes. *)
Definition rbind {A B} (r : result A) (k : A -> result B) : result B :=
  match r with
  | Ok a => k a
  | Raise e => Raise e
  end.

Notation "x <-? r ;; k" := (rbind r (fun x => k))
  (at level 61, r at next level, right associativity) : monad_scope.

(** ** Dataframes *)

Record DataFrame : Type := {
  index : list Z;
  columns : list (string * Series)
}.

Fixpoint lookup (key : string) (cols : list (string * Series))
  : option Series :=
  match cols with
  | [] => None
  | (k, v) :: r => if String.eqb k key then Some v else lookup key r
  end.

(** An existing column is replaced in place, a new one is added last. *)
Fixpoint assign (key : string) (v : Series) (cols : list (string * Series))
  : list (string * Series) :=
  match cols with
  | [] => [(key, v)]
  | (k, w) :: r =>
      if String.eqb k key then (k, v) :: r else (k, w) :: assign key v r
  end.

(** [df[key]] *)
Definition getitem (df : DataFrame) (key : string) : result Series :=
  match lookup key (columns df) with
  | Some s => Ok s
  | None => Raise (KeyError key)
  end.

(** [df[key] = v] *)
Definition setitem (df : DataFrame) (key : string) (v : Series) : DataFrame :=
  {| index := index df; columns := assign key v (columns df) |}.

(** [s.astype(int)] *)
Definition astype_int (s : Series) : result Series :=
  match s with
  | SBool l => Ok (SInt (map Z.b2z l))
  | SInt l => Ok (SInt l)
  | SFloat l =>
      if all_finite l then Ok (SInt (map Qtrunc (dropna l)))
      else Raise IntCastingNaNError
  end.

(** [df.index.hour]: the hour of the day of each timestamp. *)
Definition hour (t : Z) : Z := (t / Zpos Timedelta_hours_1) mod 24.

(** [df.index.hour.where(cond)]: when the condition holds on every row
    (and when there is no row) nothing is replaced and the index of hours
    keeps its integer dtype; otherwise it becomes an index of floats, with
    NaN on the rows where the condition fails. *)
Definition hour_where (idx : list Z) (cond : list bool) : Series :=
  if forallb (fun c => c) cond then SInt (map hour idx)
  else SFloat (where_ (map (fun t => of_int (hour t)) idx) cond).

(** ** Figures *)

(** [rcParams["hist.bins"]], the number of bins of [ax.hist] when the call
    gives none. *)
Definition hist_bins : Z := 10.

Definition qmin_list (x : Q) (l : list Q) : Q := fold_right Qmin x l.
Definition qmax_list (x : Q) (l : list Q) : Q := fold_right Qmax x l.

(** The outer edges of the bins: the range of the data, [(0, 1)] for no
    data, widened by a half on each side when the range is a point. *)
Definition outer_edges (a : list Q) : Q * Q :=
  match a with
  | [] => (0, 1)%Q
  | x :: r =>
      let lo := qmin_list x r in
      let hi := qmax_list x r in
      if Qeq_bool lo hi then (lo - (1 # 2), hi + (1 # 2))%Q else (lo, hi)
  end.

(** The bin of a value inside the edges; the last bin is closed on the
    right. *)
Definition bin_index (first_edge last_edge x : Q) : Z :=
  let i :=
    Qfloor ((x - first_edge) / (last_edge - first_edge) * inject_Z hist_bins)
  in
  if i =? hist_bins then i - 1 else i.

Definition keep (first_edge last_edge x : Q) : bool :=
  Qle_bool first_edge x && Qle_bool x last_edge.

Definition bin_count (first_edge last_edge : Q) (a : list Q) (b : Z) : Z :=
  Z.of_nat
    (List.length (filter (fun x => bin_index first_edge last_edge x =? b) a)).

(** The counts of [ax.hist(a)], one per bin. *)
Definition hist (a : list Q) : list Z :=
  let (first_edge, last_edge) := outer_edges a in
  let kept := filter (keep first_edge last_edge) a in
  map (fun b => bin_count first_edge last_edge kept (Z.of_nat b))
      (seq 0 (Z.to_nat hist_bins)).

Fixpoint zsum (l : list Z) : Z :=
  match l with
  | [] => 0
  | x :: r => x + zsum r
  end.

Record Line : Type := {
  line_y : Series;
  line_label : string
}.

Record Axes : Type := {
  lines : list Line;
  bars : list Z;
  xlabel : string;
  ylabel : string;
  title : string
}.

Record Figure : Type := {
  fig_x : list Z;
  fig_axes : list Axes
}.

(** ** Documents *)

Inductive Image : Type :=
| ImageFile (path : string)
| Rendered (fig : Figure).

Inductive piece : Type :=
| Str (s : string)
| Num (x : float)
| Described (s : Series).

Inductive par_style : Type := Normal | List_Bullet.
Inductive run_style : Type := Default_Font | Emphasis.

Record Run : Type := {
  run_text : list piece;
  run_font : run_style
}.

Inductive Block : Type :=
| Heading (text : string) (level : nat)
| Paragraph (style : par_style) (runs : list Run)
| Picture (img : Image).

Definition Document : Type := list Block.

(** The state of [create_report]: the caller's dataframe and the document
    under construction. *)
Record heap : Type := {
  df : DataFrame;
  document : Document
}.

Definition on_df {A} (m : M DataFrame A) : M heap A :=
  fun h =>
    let (r, d) := m (df h) in
    (r, {| df := d; document := document h |}).

Definition read_df {A} (f : DataFrame -> result A) : M heap A :=
  fun h => (f (df h), h).

Definition append (b : Block) : M heap unit :=
  fun h => (Ok tt, {| df := df h; document := document h ++ [b] |}).

Fixpoint map_last (f : Block -> Block) (d : Document) : Document :=
  match d with
  | [] => []
  | [b] => [f b]
  | b :: r => b :: map_last f r
  end.

(** [Document()] *)
Definition new_document : M heap unit :=
  fun h => (Ok tt, {| df := df h; document := [] |}).

Definition add_heading (text : string) (level : nat) : M heap unit :=
  append (Heading text level).

Definition add_picture (img : Image) : M heap unit :=
  append (Picture img).

(** [paragraph = document.add_paragraph()] *)
Definition add_paragraph : M heap unit :=
  append (Paragraph Normal []).

(** [document.add_paragraph(text)] *)
Definition add_paragraph_text (text : string) : M heap unit :=
  append (Paragraph Normal [{| run_text := [Str text]; run_font := Default_Font |}]).

(** [paragraph.style = st], [paragraph] being the paragraph added last. *)
Definition set_style (st : par_style) : M heap unit :=
  fun h =>
    (Ok tt,
     {| df := df h;
        document :=
          map_last
            (fun b =>
               match b with
               | Paragraph _ runs => Paragraph st runs
               | _ => b
               end)
            (document h) |}).

(** [paragraph.add_run(text)] with the style of the run. *)
Definition add_run (text : list piece) (font : run_style) : M heap unit :=
  fun h =>
    (Ok tt,
     {| df := df h;
        document :=
          map_last
            (fun b =>
               match b with
               | Paragraph st runs =>
                   Paragraph st (runs ++ [{| run_text := text; run_font := font |}])
               | _ => b
               end)
            (document h) |}).

Definition default (d : string) (o : option string) : string :=
  match o with
  | Some s => s
  | None => d
  end.

Definition df_get (key : string) : M DataFrame Series :=
  fun d => (getitem d key, d).

Definition df_set (key : string) (v : Series) : M DataFrame unit :=
  fun d => (Ok tt, setitem d key v).

Definition df_index : M DataFrame (list Z) :=
  fun d => (Ok (index d), d).

(** The character [34], the double quote. *)
Definition dquote : string :=
  String (Ascii.Ascii false true false false false true false false) EmptyString.

Definition plain_axes (ls : list Line) (xl yl ti : string) : Axes :=
  {| lines := ls; bars := []; xlabel := xl; ylabel := yl; title := ti |}.

Local Open Scope monad_scope.

(** ** Fault code 1 *)

Module FaultCodeOneReport.

Record t : Type := {
  vfd_speed_percent_err_thres : float;
  vfd_speed_percent_max : float;
  duct_static_inches_err_thres : float;
  duct_static_col : string;
  supply_vfd_speed_col : string;
  duct_static_setpoint_col : string
}.

Definition create_fan_plot (self : t) (output_col : option string)
  : M DataFrame Figure :=
  let output_col := default "fc1_flag" output_col in
  flag <- df_get output_col ;;
  flag_int <- lift (astype_int flag) ;;
  df_set output_col flag_int ;;
  x <- df_index ;;
  static <- df_get (duct_static_col self) ;;
  fan <- df_get (supply_vfd_speed_col self) ;;
  fault <- df_get output_col ;;
  ret {| fig_x := x;
         fig_axes :=
           [ plain_axes [{| line_y := static; line_label := "STATIC" |}]
               "" "Inch WC" "";
             plain_axes [{| line_y := fan; line_label := "FAN" |}]
               "" "%" "";
             plain_axes [{| line_y := fault; line_label := "Fault" |}]
               "Date" "Fault Flags" "Fault Conditions 1 Plot" ] |}.

Definition summary : Type := float * float * float * float * float * float.

Definition summarize_fault_times (self : t) (d : DataFrame)
  (output_col : option string) : result summary :=
  let output_col := default "fc1_flag" output_col in
  let delta := diff (index d) in
  let total_days := round (td_truediv (td_sum delta) Timedelta_days_1) 2 in
  let total_hours := td_truediv (td_sum delta) Timedelta_hours_1 in
  flag <-? getitem d output_col ;;
  let hours_fc1_mode :=
    td_truediv (td_sum (td_mul delta flag)) Timedelta_hours_1 in
  let percent_true := round (fmul (mean flag) (Fin 100)) 2 in
  let percent_false := round (fsub (Fin 100) percent_true) 2 in
  static <-? getitem d (duct_static_col self) ;;
  let flag_true_duct_static :=
    round (mean (Series_where static (eq_1 flag))) 2 in
  Ok (total_days, total_hours, hours_fc1_mode, percent_true, percent_false,
      flag_true_duct_static).

Definition create_hist_plot (self : t) (output_col : option string)
  (duct_static_col : option string) : M DataFrame Figure :=
  let output_col := default "fc1_flag" output_col in
  let duct_static_col := default "duct_static" duct_static_col in
  x <- df_index ;;
  flag <- df_get output_col ;;
  df_set "hour_of_the_day_fc1" (hour_where x (eq_1 flag)) ;;
  hours <- df_get "hour_of_the_day_fc1" ;;
  ret {| fig_x := [];
         fig_axes :=
           [ {| lines := [];
                bars := hist (dropna (values hours));
                xlabel := "24 Hour Number in Day";
                ylabel := "Frequency";
                title := "Hour-Of-Day When Fault Flag 1 is TRUE" |} ] |}.

Definition description : string :=
  "Fault condition one of ASHRAE Guideline 36 is related to flagging poor performance of a AHU variable supply fan attempting to control to a duct pressure setpoint. Fault condition equation as defined by ASHRAE:".

Definition high_text : string :=
  "The percent True metric that represents the amount of time for when the fault flag is True is high indicating the fan is running at high speeds and appearing to not generate good duct static pressure".

Definition low_text : string :=
  "The percent True metric that represents the amount of time for when the fault flag is True is low inidicating the fan appears to generate good duct static pressure".

Definition no_reset_text : string :=
  "No duct pressure setpoint reset detected (BAD)".

Definition reset_text : string := "Duct pressure reset detected (Good)".

(** [create_report]: [now] is the value of [time.ctime()].  The parameter
    [flag_true_duct_static] of the Python method is overwritten before it
    is read and has no counterpart here. *)
Definition create_report (self : t) (path : string)
  (output_col : option string) (duct_static_col : option string)
  (now : string) : M heap Document :=
  new_document ;;
  add_heading "Fault Condition One Report" 0 ;;
  add_paragraph_text description ;;
  add_picture (ImageFile "./images/fc1_definition.png") ;;
  add_heading "Dataset Plot" 2 ;;
  fig <- on_df (create_fan_plot self output_col) ;;
  add_picture (Rendered fig) ;;
  add_heading "Dataset Statistics" 2 ;;
  s <- read_df (fun d => summarize_fault_times self d output_col) ;;
  let '(total_days, total_hours, hours_fc1_mode, percent_true,
        percent_false, flag_true_duct_static) := s in
  add_paragraph ;;
  set_style List_Bullet ;;
  add_run [Str "Total time in days calculated in dataset: "; Num total_days]
    Default_Font ;;
  add_paragraph ;;
  set_style List_Bullet ;;
  add_run [Str "Total time in hours calculated in dataset: "; Num total_hours]
    Default_Font ;;
  add_paragraph ;;
  set_style List_Bullet ;;
  add_run [Str "Total time in hours for when fault flag is True: ";
           Num hours_fc1_mode] Default_Font ;;
  add_paragraph ;;
  set_style List_Bullet ;;
  add_run [Str "Percent of time in the dataset when the fault flag is True: ";
           Num percent_true; Str "%"] Default_Font ;;
  add_paragraph ;;
  set_style List_Bullet ;;
  add_run [Str "Percent of time in the dataset when the fault flag is False: ";
           Num percent_false; Str "%"] Default_Font ;;
  add_paragraph ;;
  add_heading "Time-of-day Histogram Plots" 2 ;;
  histogram_plot <-
    on_df (create_hist_plot self output_col duct_static_col) ;;
  add_picture (Rendered histogram_plot) ;;
  (if negb (isnan flag_true_duct_static) then
     add_paragraph ;;
     set_style List_Bullet ;;
     add_run
       [Str "Average duct system pressure for when in fault condition (fan VFD speed > 95%): ";
        Num flag_true_duct_static; Str dquote; Str "WC"] Default_Font
   else ret tt) ;;
  add_paragraph ;;
  add_heading "VFD Speed Statistics" 2 ;;
  add_paragraph ;;
  set_style List_Bullet ;;
  fan <- read_df (fun d => getitem d (supply_vfd_speed_col self)) ;;
  add_run [Described fan] Default_Font ;;
  add_heading "Duct Pressure Statistics" 2 ;;
  add_paragraph ;;
  set_style List_Bullet ;;
  static <- read_df (fun d => getitem d (FaultCodeOneReport.duct_static_col self)) ;;
  add_run [Described static] Default_Font ;;
  add_heading "Duct Pressure Setpoints Statistics" 2 ;;
  add_paragraph ;;
  set_style List_Bullet ;;
  setpoint <- read_df (fun d => getitem d (duct_static_setpoint_col self)) ;;
  add_run [Described setpoint] Default_Font ;;
  add_heading "Suggestions based on data analysis" 2 ;;
  add_paragraph ;;
  set_style List_Bullet ;;
  (if fgt percent_true (Fin 5) then add_run [Str high_text] Default_Font
   else add_run [Str low_text] Default_Font) ;;
  add_paragraph ;;
  set_style List_Bullet ;;
  setpoint' <- read_df (fun d => getitem d (duct_static_setpoint_col self)) ;;
  (if std_eq_0 setpoint' then add_run [Str no_reset_text] Default_Font
   else add_run [Str reset_text] Default_Font) ;;
  add_paragraph ;;
  add_run [Str "Report generated: "; Str now] Emphasis ;;
  fun h => (Ok (document h), h).

End FaultCodeOneReport.

(** ** Fault code 2 *)

Module FaultCodeTwoReport.

Record t : Type := {
  mix_degf_err_thres : float;
  return_degf_err_thres : float;
  outdoor_degf_err_thres : float;
  mat_col : string;
  rat_col : string;
  oat_col : string
}.

Definition create_plot (self : t) (output_col : option string)
  : M DataFrame Figure :=
  let output_col := default "fc2_flag" output_col in
  flag <- df_get output_col ;;
  flag_int <- lift (astype_int flag) ;;
  df_set output_col flag_int ;;
  x <- df_index ;;
  mat <- df_get (mat_col self) ;;
  rat <- df_get (rat_col self) ;;
  oat <- df_get (oat_col self) ;;
  fault <- df_get output_col ;;
  ret {| fig_x := x;
         fig_axes :=
           [ plain_axes [{| line_y := mat; line_label := "Mix Temp" |};
                         {| line_y := rat; line_label := "Return Temp" |};
                         {| line_y := oat; line_label := "Out Temp" |}]
               "" "°F" "";
             plain_axes [{| line_y := fault; line_label := "Fault" |}]
               "Date" "Fault Flags" "Fault Conditions 2 Plot" ] |}.

Definition summary : Type :=
  float * float * float * float * float * float * float * float.

Definition summarize_fault_times (self : t) (d : DataFrame)
  (output_col : option string) : result summary :=
  let output_col := default "fc2_flag" output_col in
  let delta := diff (index d) in
  let total_days := round (td_truediv (td_sum delta) Timedelta_days_1) 2 in
  let total_hours := td_truediv (td_sum delta) Timedelta_hours_1 in
  flag <-? getitem d output_col ;;
  let hours_fc2_mode :=
    td_truediv (td_sum (td_mul delta flag)) Timedelta_hours_1 in
  let percent_true := round (fmul (mean flag) (Fin 100)) 2 in
  let percent_false := round (fsub (Fin 100) percent_true) 2 in
  mat <-? getitem d (mat_col self) ;;
  let flag_true_mat := round (mean (Series_where mat (eq_1 flag))) 2 in
  oat <-? getitem d (oat_col self) ;;
  let flag_true_oat := round (mean (Series_where oat (eq_1 flag))) 2 in
  rat <-? getitem d (rat_col self) ;;
  let flag_true_rat := round (mean (Series_where rat (eq_1 flag))) 2 in
  Ok (total_days, total_hours, hours_fc2_mode, percent_true, percent_false,
      flag_true_mat, flag_true_oat, flag_true_rat).

Definition create_hist_plot (self : t) (output_col : option string)
  (mat_col : option string) : M DataFrame Figure :=
  let output_col := default "fc2_flag" output_col in
  let mat_col := default "mat" mat_col in
  x <- df_index ;;
  flag <- df_get output_col ;;
  df_set "hour_of_the_day_fc2" (hour_where x (eq_1 flag)) ;;
  hours <- df_get "hour_of_the_day_fc2" ;;
  ret {| fig_x := [];
         fig_axes :=
           [ {| lines := [];
                bars := hist (dropna (values hours));
                xlabel := "24 Hour Number in Day";
                ylabel := "Frequency";
                title := "Hour-Of-Day When Fault Flag 2 is TRUE" |} ] |}.

Definition description : string :=
  "Fault condition two and three of ASHRAE Guideline 36 is related to flagging mixing air temperatures of the AHU that are out of acceptable ranges. Fault condition 2 flags mixing air temperatures that are too low and fault condition 3 flags mixing temperatures that are too high when in comparision to return and outside air data. The mixing air temperatures in theory should always be in between the return and outside air temperatures ranges. Fault condition two equation as defined by ASHRAE:".

Definition out_of_calibration_text : string :=
  "The percent True of time in fault condition 2 or 3 is high indicating the AHU temperature sensors are out of calibration".

Definition within_calibration_text : string :=
  "The percent True of time is low inidicating the AHU temperature sensors are within calibration".

(** [create_report]: [now] is the value of [time.ctime()].  The parameter
    [flag_true_mat] of the Python method is overwritten before it is read
    and has no counterpart here. *)
Definition create_report (self : t) (path : string)
  (output_col : option string) (mat_col : option string)
  (now : string) : M heap Document :=
  new_document ;;
  add_heading "Fault Condition Two Report" 0 ;;
  add_paragraph_text description ;;
  add_picture (ImageFile "./images/fc2_definition.png") ;;
  add_heading "Dataset Plot" 2 ;;
  fig <- on_df (create_plot self output_col) ;;
  add_picture (Rendered fig) ;;
  add_heading "Dataset Statistics" 2 ;;
  s <- read_df (fun d => summarize_fault_times self d output_col) ;;
  let '(total_days, total_hours, hours_fc2_mode, percent_true,
        percent_false, flag_true_mat, flag_true_oat, flag_true_rat) := s in
  add_paragraph ;;
  set_style List_Bullet ;;
  add_run [Str "Total time in days calculated in dataset: "; Num total_days]
    Default_Font ;;
  add_paragraph ;;
  set_style List_Bullet ;;
  add_run [Str "Total time in hours calculated in dataset: "; Num total_hours]
    Default_Font ;;
  add_paragraph ;;
  set_style List_Bullet ;;
  add_run [Str "Total time in hours for when fault flag is True: ";
           Num hours_fc2_mode] Default_Font ;;
  add_paragraph ;;
  set_style List_Bullet ;;
  add_run [Str "Percent of time in the dataset when the fault flag is True: ";
           Num percent_true; Str "%"] Default_Font ;;
  add_paragraph ;;
  set_style List_Bullet ;;
  add_run [Str "Percent of time in the dataset when the fault flag is False: ";
           Num percent_false; Str "%"] Default_Font ;;
  add_paragraph ;;
  add_heading "Time-of-day Histogram Plots" 2 ;;
  histogram_plot <- on_df (create_hist_plot self output_col mat_col) ;;
  add_picture (Rendered histogram_plot) ;;
  (if negb (isnan flag_true_mat) then
     add_paragraph ;;
     set_style List_Bullet ;;
     add_run
       [Str "When fault condition 2 is True the average mix air temp is ";
        Num flag_true_mat; Str "°F, outside air temp is ";
        Num flag_true_oat; Str "°F, and return air temp is ";
        Num flag_true_rat;
        Str "°F. This could possibly help with pin pointing AHU operating conditions for when this fault is True."]
       Default_Font
   else ret tt) ;;
  add_paragraph ;;
  add_heading "Mix Temp Statistics" 2 ;;
  add_paragraph ;;
  set_style List_Bullet ;;
  mat <- read_df (fun d => getitem d (FaultCodeTwoReport.mat_col self)) ;;
  add_run [Described mat] Default_Font ;;
  add_heading "Return Temp Statistics" 2 ;;
  add_paragraph ;;
  set_style List_Bullet ;;
  rat <- read_df (fun d => getitem d (rat_col self)) ;;
  add_run [Described rat] Default_Font ;;
  add_heading "Outside Temp Statistics" 2 ;;
  add_paragraph ;;
  set_style List_Bullet ;;
  oat <- read_df (fun d => getitem d (oat_col self)) ;;
  add_run [Described oat] Default_Font ;;
  add_heading "Suggestions based on data analysis" 2 ;;
  add_paragraph ;;
  set_style List_Bullet ;;
  (if flt percent_true (Fin 5) then
     add_run [Str out_of_calibration_text] Default_Font
   else add_run [Str within_calibration_text] Default_Font) ;;
  add_paragraph ;;
  add_run [Str "Report generated: "; Str now] Emphasis ;;
  fun h => (Ok (document h), h).

End FaultCodeTwoReport.

(** * Vocabulary of the properties *)

(** ** Summaries: the components of the tuples *)

Module SummaryOne.
Import FaultCodeOneReport.
Definition total_days (s : summary) : float :=
  let '(x, _, _, _, _, _) := s in x.
Definition total_hours (s : summary) : float :=
  let '(_, x, _, _, _, _) := s in x.
Definition hours_fc1_mode (s : summary) : float :=
  let '(_, _, x, _, _, _) := s in x.
Definition percent_true (s : summary) : float :=
  let '(_, _, _, x, _, _) := s in x.
Definition percent_false (s : summary) : float :=
  let '(_, _, _, _, x, _) := s in x.
Definition flag_true_duct_static (s : summary) : float :=
  let '(_, _, _, _, _, x) := s in x.
End SummaryOne.

Module SummaryTwo.
Import FaultCodeTwoReport.
Definition total_days (s : summary) : float :=
  let '(x, _, _, _, _, _, _, _) := s in x.
Definition total_hours (s : summary) : float :=
  let '(_, x, _, _, _, _, _, _) := s in x.
Definition hours_fc2_mode (s : summary) : float :=
  let '(_, _, x, _, _, _, _, _) := s in x.
Definition percent_true (s : summary) : float :=
  let '(_, _, _, x, _, _, _, _) := s in x.
Definition percent_false (s : summary) : float :=
  let '(_, _, _, _, x, _, _, _) := s in x.
Definition flag_true_mat (s : summary) : float :=
  let '(_, _, _, _, _, x, _, _) := s in x.
Definition flag_true_oat (s : summary) : float :=
  let '(_, _, _, _, _, _, x, _) := s in x.
Definition flag_true_rat (s : summary) : float :=
  let '(_, _, _, _, _, _, _, x) := s in x.
End SummaryTwo.

(** ** Intervals between samples *)








(** ** Sample dataframes *)

Definition hour_ns : Z := 3600000000000.

Definition fc1 : FaultCodeOneReport.t :=
  {| FaultCodeOneReport.vfd_speed_percent_err_thres := Fin 0.05;
     FaultCodeOneReport.vfd_speed_percent_max := Fin 0.99;
     FaultCodeOneReport.duct_static_inches_err_thres := Fin 0.1;
     FaultCodeOneReport.duct_static_col := "duct_static";
     FaultCodeOneReport.supply_vfd_speed_col := "supply_vfd_speed";
     FaultCodeOneReport.duct_static_setpoint_col := "duct_static_setpoint" |}.

Definition fc2 : FaultCodeTwoReport.t :=
  {| FaultCodeTwoReport.mix_degf_err_thres := Fin 5;
     FaultCodeTwoReport.return_degf_err_thres := Fin 2;
     FaultCodeTwoReport.outdoor_degf_err_thres := Fin 5;
     FaultCodeTwoReport.mat_col := "mat";
     FaultCodeTwoReport.rat_col := "rat";
     FaultCodeTwoReport.oat_col := "oat" |}.

(** A dataframe for both reports, from an index and a flag column, with
    constant sensor columns of the given length. *)
Definition sample_df (idx : list Z) (flag1 flag2 : Series) (n : nat)
  : DataFrame :=
  {| index := idx;
     columns :=
       [ ("duct_static", SFloat (repeat (Fin 1) n));
         ("supply_vfd_speed", SFloat (repeat (Fin 80) n));
         ("duct_static_setpoint", SFloat (repeat (Fin 1) n));
         ("mat", SFloat (repeat (Fin 60) n));
         ("rat", SFloat (repeat (Fin 70) n));
         ("oat", SFloat (repeat (Fin 50) n));
         ("fc1_flag", flag1);
         ("fc2_flag", flag2) ] |}.


(** Two samples one hour apart, the flag set at the second one only. *)
Definition df_second_flagged : DataFrame :=
  sample_df [0; hour_ns] (SBool [false; true]) (SBool [false; true]) 2.

(** No row at all. *)
Definition df_empty : DataFrame :=
  sample_df [] (SInt []) (SInt []) 0.

(** One row. *)
Definition df_single : DataFrame :=
  sample_df [hour_ns] (SInt [1]) (SInt [1]) 1.

(** ** Rows selected by a condition *)

(** The timestamps of the rows where the condition holds. *)
Fixpoint select (idx : list Z) (cond : list bool) : list Z :=
  match idx, cond with
  | t :: r, c :: cs => if c then t :: select r cs else select r cs
  | _, _ => []
  end.

(** The number of rows where the condition holds. *)
Fixpoint count_true (cond : list bool) : nat :=
  match cond with
  | [] => 0
  | c :: cs => (if c then 1 else 0) + count_true cs
  end.

(** ** The layout of the reports *)

Definition bullet (text : list piece) : Block :=
  Paragraph List_Bullet [{| run_text := text; run_font := Default_Font |}].

Definition spacer : Block := Paragraph Normal [].

Definition footer (now : string) : Document :=
  [ Paragraph Normal
      [{| run_text := [Str "Report generated: "; Str now];
          run_font := Emphasis |}] ].

Definition is_bullet (b : Block) : bool :=
  match b with
  | Paragraph List_Bullet _ => true
  | _ => false
  end.

Definition is_heading (b : Block) : bool :=
  match b with
  | Heading _ _ => true
  | _ => false
  end.

(** The blocks up to the next heading. *)
Fixpoint until_heading (doc : Document) : Document :=
  match doc with
  | [] => []
  | b :: r => if is_heading b then [] else b :: until_heading r
  end.

(** The blocks under the level 2 heading [text]: those between it and the
    next heading. *)
Fixpoint block_of (text : string) (doc : Document) : Document :=
  match doc with
  | [] => []
  | Heading t 2 :: r =>
      if String.eqb t text then until_heading r else block_of text r
  | _ :: r => block_of text r
  end.

Module LayoutOne.
Import FaultCodeOneReport.

Definition title_part : Document :=
  [ Heading "Fault Condition One Report" 0;
    Paragraph Normal
      [{| run_text := [Str description]; run_font := Default_Font |}];
    Picture (ImageFile "./images/fc1_definition.png") ].

Definition plot_part (fig : Figure) : Document :=
  [ Heading "Dataset Plot" 2; Picture (Rendered fig) ].

Definition statistics_part (s : summary) : Document :=
  [ Heading "Dataset Statistics" 2;
    bullet [Str "Total time in days calculated in dataset: ";
            Num (SummaryOne.total_days s)];
    bullet [Str "Total time in hours calculated in dataset: ";
            Num (SummaryOne.total_hours s)];
    bullet [Str "Total time in hours for when fault flag is True: ";
            Num (SummaryOne.hours_fc1_mode s)];
    bullet [Str "Percent of time in the dataset when the fault flag is True: ";
            Num (SummaryOne.percent_true s); Str "%"];
    bullet [Str "Percent of time in the dataset when the fault flag is False: ";
            Num (SummaryOne.percent_false s); Str "%"];
    spacer ].

Definition histogram_part (h : Figure) : Document :=
  [ Heading "Time-of-day Histogram Plots" 2; Picture (Rendered h) ].

Definition commentary (x : float) : Block :=
  bullet
    [Str "Average duct system pressure for when in fault condition (fan VFD speed > 95%): ";
     Num x; Str dquote; Str "WC"].

Definition commentary_part (s : summary) : Document :=
  (if isnan (SummaryOne.flag_true_duct_static s) then []
   else [commentary (SummaryOne.flag_true_duct_static s)])
  ++ [spacer].

Definition describe_part (fan static setpoint : Series) : Document :=
  [ Heading "VFD Speed Statistics" 2; bullet [Described fan];
    Heading "Duct Pressure Statistics" 2; bullet [Described static];
    Heading "Duct Pressure Setpoints Statistics" 2;
    bullet [Described setpoint] ].

Definition suggestions_part (s : summary) (setpoint : Series) : Document :=
  [ Heading "Suggestions based on data analysis" 2;
    bullet [Str (if fgt (SummaryOne.percent_true s) (Fin 5) then high_text
                 else low_text)];
    bullet [Str (if std_eq_0 setpoint then no_reset_text else reset_text)] ].

Definition report (fig : Figure) (s : summary) (h : Figure)
  (fan static setpoint : Series) (now : string) : Document :=
  title_part ++ plot_part fig ++ statistics_part s ++ histogram_part h
  ++ commentary_part s ++ describe_part fan static setpoint
  ++ suggestions_part s setpoint ++ footer now.

End LayoutOne.

Module LayoutTwo.
Import FaultCodeTwoReport.

Definition title_part : Document :=
  [ Heading "Fault Condition Two Report" 0;
    Paragraph Normal
      [{| run_text := [Str description]; run_font := Default_Font |}];
    Picture (ImageFile "./images/fc2_definition.png") ].

Definition plot_part (fig : Figure) : Document :=
  [ Heading "Dataset Plot" 2; Picture (Rendered fig) ].

Definition statistics_part (s : summary) : Document :=
  [ Heading "Dataset Statistics" 2;
    bullet [Str "Total time in days calculated in dataset: ";
            Num (SummaryTwo.total_days s)];
    bullet [Str "Total time in hours calculated in dataset: ";
            Num (SummaryTwo.total_hours s)];
    bullet [Str "Total time in hours for when fault flag is True: ";
            Num (SummaryTwo.hours_fc2_mode s)];
    bullet [Str "Percent of time in the dataset when the fault flag is True: ";
            Num (SummaryTwo.percent_true s); Str "%"];
    bullet [Str "Percent of time in the dataset when the fault flag is False: ";
            Num (SummaryTwo.percent_false s); Str "%"];
    spacer ].

Definition histogram_part (h : Figure) : Document :=
  [ Heading "Time-of-day Histogram Plots" 2; Picture (Rendered h) ].

Definition commentary (x y z : float) : Block :=
  bullet
    [Str "When fault condition 2 is True the average mix air temp is ";
     Num x; Str "°F, outside air temp is ";
     Num y; Str "°F, and return air temp is ";
     Num z;
     Str "°F. This could possibly help with pin pointing AHU operating conditions for when this fault is True."].

Definition commentary_part (s : summary) : Document :=
  (if isnan (SummaryTwo.flag_true_mat s) then []
   else [commentary (SummaryTwo.flag_true_mat s) (SummaryTwo.flag_true_oat s)
           (SummaryTwo.flag_true_rat s)])
  ++ [spacer].

Definition describe_part (mat rat oat : Series) : Document :=
  [ Heading "Mix Temp Statistics" 2; bullet [Described mat];
    Heading "Return Temp Statistics" 2; bullet [Described rat];
    Heading "Outside Temp Statistics" 2; bullet [Described oat] ].

Definition suggestions_part (s : summary) : Document :=
  [ Heading "Suggestions based on data analysis" 2;
    bullet [Str (if flt (SummaryTwo.percent_true s) (Fin 5)
                 then out_of_calibration_text
                 else within_calibration_text)] ].

Definition report (fig : Figure) (s : summary) (h : Figure)
  (mat rat oat : Series) (now : string) : Document :=
  title_part ++ plot_part fig ++ statistics_part s ++ histogram_part h
  ++ commentary_part s ++ describe_part mat rat oat
  ++ suggestions_part s ++ footer now.

End LayoutTwo.

(** ** Outcomes of [create_report] *)

(** The run stopped on the exception [e], leaving the dataframe [d] to the
    caller and a document under construction that already holds blocks. *)
Definition aborted (run : result Document * heap) (e : exn) (d : DataFrame)
  : Prop :=
  fst run = Raise e /\ df (snd run) = d /\ document (snd run) <> [].

(** The run returned the document [doc], leaving the dataframe [d]. *)
Definition returned (run : result Document * heap) (doc : Document)
  (d : DataFrame) : Prop :=
  run = (Ok doc, {| df := d; document := doc |}).


(** The sample dataframe without its setpoint column. *)
Definition df_no_setpoint : DataFrame :=
  {| index := [0; hour_ns];
     columns :=
       [ ("duct_static", SFloat [Fin 1; Fin 1]);
         ("supply_vfd_speed", SFloat [Fin 80; Fin 80]);
         ("fc1_flag", SInt [0; 1]) ] |}.

(** ** Frames *)

(** [d'] has the index of [d] and, outside [keys], the columns of [d]. *)
Definition same_except (keys : list string) (d d' : DataFrame) : Prop :=
  index d' = index d
  /\ forall c, ~ In c keys -> lookup c (columns d') = lookup c (columns d).

(** ** Vocabulary of the further properties *)



(** The series has a boolean or an integer dtype. *)
Definition integer_dtype (s : Series) : bool :=
  match s with
  | SFloat _ => false
  | _ => true
  end.

(** The first of the columns [keys], in the order the code reads them, that
    the dataframe does not have. *)
Definition absent (d : DataFrame) (k : string) : bool :=
  match lookup k (columns d) with
  | Some _ => false
  | None => true
  end.

Definition first_absent (keys : list string) (d : DataFrame) : option string :=
  find (absent d) keys.




(** ** Further sample dataframes *)

(** Two rows, the flag of the first one missing. *)
Definition df_flag_missing_value : DataFrame :=
  sample_df [0; hour_ns] (SFloat [NaN; Fin 1]) (SFloat [NaN; Fin 1]) 2.

(** A boolean flag column and no mixed air temperature column. *)
Definition df_no_mat : DataFrame :=
  {| index := [0; hour_ns];
     columns := [ ("rat", SFloat [Fin 70; Fin 70]);
                  ("fc2_flag", SBool [false; true]) ] |}.




(** * Properties *)

Section Timedeltas.











End Timedeltas.

Section Rounding.





Lemma round_NaN (n : nat) : round NaN n = NaN.
Proof. reflexivity. Qed.

Lemma nanmean_nil : nanmean [] = NaN.
Proof. reflexivity. Qed.

Lemma values_nil (s : Series) : size s = 0%nat -> values s = [].
Proof.
  destruct s as [l|l|l]; cbn; intro H; apply length_zero_iff_nil in H;
    subst; reflexivity.
Qed.


Lemma where_nil_r (l : list float) : where_ l [] = [].
Proof. destruct l; reflexivity. Qed.

Lemma td_truediv_0 (u : positive) : feq (td_truediv 0 u) (Fin 0) = true.
Proof. reflexivity. Qed.

Lemma round_0 (u : positive) :
  feq (round (td_truediv 0 u) 2) (Fin 0) = true.
Proof. reflexivity. Qed.

End Rounding.

(** ** The summaries as functions of the columns they read *)

Section Summaries.

Import FaultCodeOneReport FaultCodeTwoReport.

Lemma summarize_one (self : FaultCodeOneReport.t) (d : DataFrame)
  (oc : option string) (flag st : Series) :
  getitem d (default "fc1_flag" oc) = Ok flag ->
  getitem d (FaultCodeOneReport.duct_static_col self) = Ok st ->
  FaultCodeOneReport.summarize_fault_times self d oc
  = Ok (round (td_truediv (td_sum (diff (index d))) Timedelta_days_1) 2,
        td_truediv (td_sum (diff (index d))) Timedelta_hours_1,
        td_truediv (td_sum (td_mul (diff (index d)) flag)) Timedelta_hours_1,
        round (fmul (mean flag) (Fin 100)) 2,
        round (fsub (Fin 100) (round (fmul (mean flag) (Fin 100)) 2)) 2,
        round (mean (Series_where st (eq_1 flag))) 2).
Proof.
  intros Hf Hs. unfold FaultCodeOneReport.summarize_fault_times.
  rewrite Hf. unfold rbind at 1. rewrite Hs. reflexivity.
Qed.

Lemma summarize_two (self : FaultCodeTwoReport.t) (d : DataFrame)
  (oc : option string) (flag mat oat rat : Series) :
  getitem d (default "fc2_flag" oc) = Ok flag ->
  getitem d (FaultCodeTwoReport.mat_col self) = Ok mat ->
  getitem d (FaultCodeTwoReport.oat_col self) = Ok oat ->
  getitem d (FaultCodeTwoReport.rat_col self) = Ok rat ->
  FaultCodeTwoReport.summarize_fault_times self d oc
  = Ok (round (td_truediv (td_sum (diff (index d))) Timedelta_days_1) 2,
        td_truediv (td_sum (diff (index d))) Timedelta_hours_1,
        td_truediv (td_sum (td_mul (diff (index d)) flag)) Timedelta_hours_1,
        round (fmul (mean flag) (Fin 100)) 2,
        round (fsub (Fin 100) (round (fmul (mean flag) (Fin 100)) 2)) 2,
        round (mean (Series_where mat (eq_1 flag))) 2,
        round (mean (Series_where oat (eq_1 flag))) 2,
        round (mean (Series_where rat (eq_1 flag))) 2).
Proof.
  intros Hf Hm Ho Hr. unfold FaultCodeTwoReport.summarize_fault_times.
  rewrite Hf. unfold rbind at 1. rewrite Hm. unfold rbind at 1.
  rewrite Ho. unfold rbind at 1. rewrite Hr. reflexivity.
Qed.




End Summaries.


Section Histograms.

Lemma qmin_list_le_head (x : Q) (r : list Q) : (qmin_list x r <= x)%Q.
Proof.
  induction r as [|y r IH]; cbn; [apply Qle_refl|].
  eapply Qle_trans; [apply Q.le_min_r | exact IH].
Qed.

Lemma qmin_list_le (x : Q) (r : list Q) (y : Q) :
  In y r -> (qmin_list x r <= y)%Q.
Proof.
  induction r as [|z r IH]; cbn; [contradiction|].
  intros [E|H].
  - subst z. apply Q.le_min_l.
  - eapply Qle_trans; [apply Q.le_min_r | exact (IH H)].
Qed.

Lemma qmax_list_ge_head (x : Q) (r : list Q) : (x <= qmax_list x r)%Q.
Proof.
  induction r as [|y r IH]; cbn; [apply Qle_refl|].
  eapply Qle_trans; [exact IH | apply Q.le_max_r].
Qed.

Lemma qmax_list_ge (x : Q) (r : list Q) (y : Q) :
  In y r -> (y <= qmax_list x r)%Q.
Proof.
  induction r as [|z r IH]; cbn; [contradiction|].
  intros [E|H].
  - subst z. apply Q.le_max_l.
  - eapply Qle_trans; [exact (IH H) | apply Q.le_max_r].
Qed.

(** The outer edges enclose the data, and the first lies below the last. *)
Lemma outer_edges_bounds (a : list Q) (lo hi : Q) :
  outer_edges a = (lo, hi) ->
  (lo < hi)%Q /\ forall x, In x a -> (lo <= x <= hi)%Q.
Proof.
  destruct a as [|x r]; cbn [outer_edges].
  - intro E. inversion E. split; [reflexivity | contradiction].
  - assert (B : forall y, In y (x :: r) ->
                        (qmin_list x r <= y <= qmax_list x r)%Q).
    { intros y [E|H].
      - subst y. split; [apply qmin_list_le_head | apply qmax_list_ge_head].
      - split; [now apply qmin_list_le | now apply qmax_list_ge]. }
    destruct (Qeq_bool (qmin_list x r) (qmax_list x r)) eqn:E; intro P;
      inversion P; subst lo hi; clear P.
    + apply Qeq_bool_eq in E. split.
      * rewrite E. lra.
      * intros y Hy. destruct (B y Hy). split; lra.
    + apply Qeq_bool_neq in E. split; [|exact B].
      destruct (B x (or_introl eq_refl)) as [L U].
      assert (LU : (qmin_list x r <= qmax_list x r)%Q)
        by (eapply Qle_trans; eassumption).
      apply Qle_lteq in LU. destruct LU; [assumption | contradiction].
Qed.

Lemma bin_index_range (lo hi x : Q) :
  (lo < hi)%Q -> (lo <= x <= hi)%Q -> 0 <= bin_index lo hi x < hist_bins.
Proof.
  intros LH [L U]. unfold bin_index.
  set (v := ((x - lo) / (hi - lo) * inject_Z hist_bins)%Q).
  assert (W : (0 < hi - lo)%Q) by lra.
  assert (V0 : (0 <= v)%Q).
  { unfold v. apply Qmult_le_0_compat; [|discriminate].
    apply Qle_shift_div_l; [exact W | lra]. }
  assert (V1 : (v <= inject_Z hist_bins)%Q).
  { unfold v.
    assert (D : ((x - lo) / (hi - lo) <= 1)%Q)
      by (apply Qle_shift_div_r; [exact W | lra]).
    change (inject_Z hist_bins) with 10%Q. lra. }
  assert (F0 : 0 <= Qfloor v).
  { change 0 with (Qfloor 0). now apply Qfloor_resp_le. }
  assert (F1 : Qfloor v <= hist_bins).
  { rewrite <- (Qfloor_Z hist_bins). now apply Qfloor_resp_le. }
  destruct (Z.eqb_spec (Qfloor v) hist_bins) as [E|N].
  - rewrite E. unfold hist_bins. lia.
  - lia.
Qed.

Lemma filter_keep_all (lo hi : Q) (a : list Q) :
  (forall x, In x a -> (lo <= x <= hi)%Q) -> filter (keep lo hi) a = a.
Proof.
  induction a as [|x r IH]; intro B; [reflexivity|]. cbn [filter].
  destruct (B x (or_introl eq_refl)) as [L U].
  unfold keep at 1.
  apply Qle_bool_iff in L. apply Qle_bool_iff in U. rewrite L, U. cbn.
  f_equal. apply IH. intros y Hy. apply B. now right.
Qed.

Lemma zsum_map_add {A} (f g : A -> Z) (l : list A) :
  zsum (map (fun b => f b + g b) l) = zsum (map f l) + zsum (map g l).
Proof. induction l as [|b r IH]; cbn; [reflexivity | rewrite IH; lia]. Qed.

Lemma zsum_map_zero {A} (l : list A) : zsum (map (fun _ => 0) l) = 0.
Proof. induction l as [|b r IH]; cbn; [reflexivity | exact IH]. Qed.

(** A value falls in exactly one of the bins it ranges over. *)
Lemma zsum_indicator (i : Z) (s n : nat) :
  zsum (map (fun b => if i =? Z.of_nat b then 1 else 0) (seq s n))
  = if (Z.of_nat s <=? i) && (i <? Z.of_nat (s + n)) then 1 else 0.
Proof.
  revert s; induction n as [|n IH]; intro s.
  - cbn [seq map zsum]. rewrite Nat.add_0_r.
    destruct (Z.leb_spec (Z.of_nat s) i), (Z.ltb_spec i (Z.of_nat s));
      cbn; try reflexivity; lia.
  - cbn [seq map zsum]. rewrite IH.
    destruct (Z.eqb_spec i (Z.of_nat s)),
      (Z.leb_spec (Z.of_nat (S s)) i), (Z.ltb_spec i (Z.of_nat (S s + n))),
      (Z.leb_spec (Z.of_nat s) i), (Z.ltb_spec i (Z.of_nat (s + S n)));
      cbn; try reflexivity; lia.
Qed.

Lemma zsum_bin_counts (f : Q -> Z) (a : list Q) (n : nat) :
  (forall x, In x a -> 0 <= f x < Z.of_nat n) ->
  zsum (map (fun b =>
               Z.of_nat
                 (List.length (filter (fun x => f x =? Z.of_nat b) a)))
          (seq 0 n))
  = Z.of_nat (List.length a).
Proof.
  induction a as [|x r IH]; intro B.
  - cbn [filter List.length Z.of_nat]. apply zsum_map_zero.
  - assert (E : forall b,
        Z.of_nat
          (List.length (filter (fun y => f y =? Z.of_nat b) (x :: r)))
        = (if f x =? Z.of_nat b then 1 else 0)
          + Z.of_nat
              (List.length (filter (fun y => f y =? Z.of_nat b) r))).
    { intro b. cbn [filter]. destruct (f x =? Z.of_nat b); cbn [List.length];
        lia. }
    rewrite (map_ext _ _ E), zsum_map_add, zsum_indicator, IH.
    + destruct (B x (or_introl eq_refl)) as [L U]. cbn [Z.of_nat Nat.add].
      destruct (Z.leb_spec 0 (f x)), (Z.ltb_spec (f x) (Z.of_nat n));
        cbn [andb List.length]; lia.
    + intros y Hy. apply B. now right.
Qed.

(** The counts of the bins add up to the number of values. *)
Lemma hist_total (a : list Q) : zsum (hist a) = Z.of_nat (List.length a).
Proof.
  unfold hist. destruct (outer_edges a) as [lo hi] eqn:E.
  destruct (outer_edges_bounds a lo hi E) as [LH B].
  rewrite (filter_keep_all lo hi a B). unfold bin_count.
  apply zsum_bin_counts. intros x Hx.
  change (Z.of_nat (Z.to_nat hist_bins)) with hist_bins.
  apply bin_index_range; auto.
Qed.

Lemma hist_length (a : list Q) : List.length (hist a) = 10%nat.
Proof.
  unfold hist. destruct (outer_edges a) as [lo hi].
  now rewrite length_map, length_seq.
Qed.

Lemma hist_nil : hist [] = repeat 0 10.
Proof. reflexivity. Qed.

Lemma hour_range (t : Z) : 0 <= hour t <= 23.
Proof.
  unfold hour. pose proof (Z.mod_pos_bound (t / Zpos Timedelta_hours_1) 24).
  lia.
Qed.

Lemma dropna_where_hours (idx : list Z) (cond : list bool) :
  dropna (where_ (map (fun t => of_int (hour t)) idx) cond)
  = map (fun t => inject_Z (hour t)) (select idx cond).
Proof.
  revert cond; induction idx as [|t r IH]; intros [|c cs]; try reflexivity.
  cbn [map where_ select]. destruct c; cbn [dropna of_int map]; now rewrite IH.
Qed.

(** Where the condition holds on every row, the rows selected are all the
    rows. *)
Lemma select_all (idx : list Z) (cond : list bool) :
  List.length idx = List.length cond ->
  forallb (fun c => c) cond = true -> select idx cond = idx.
Proof.
  revert cond; induction idx as [|t r IH]; intros [|c cs] L A;
    try discriminate; [reflexivity|].
  injection L as L. cbn [forallb] in A. apply andb_true_iff in A.
  destruct A as [-> A]. cbn [select]. now rewrite (IH _ L A).
Qed.

Lemma dropna_of_int (l : list Z) : dropna (map of_int l) = map inject_Z l.
Proof. induction l as [|z r IH]; cbn; [|rewrite IH]; reflexivity. Qed.

Lemma dropna_hour_where (idx : list Z) (cond : list bool) :
  List.length idx = List.length cond ->
  dropna (values (hour_where idx cond))
  = map (fun t => inject_Z (hour t)) (select idx cond).
Proof.
  intro L. unfold hour_where.
  destruct (forallb (fun c => c) cond) eqn:A; cbn [values].
  - now rewrite (select_all idx cond L A), dropna_of_int, map_map.
  - apply dropna_where_hours.
Qed.

Lemma length_select (idx : list Z) (cond : list bool) :
  List.length idx = List.length cond ->
  List.length (select idx cond) = count_true cond.
Proof.
  revert cond; induction idx as [|t r IH]; intros [|c cs] L;
    try discriminate; [reflexivity|].
  injection L as L. cbn [select count_true].
  destruct c; cbn [List.length]; now rewrite (IH _ L).
Qed.

Lemma length_eq_1 (s : Series) : List.length (eq_1 s) = size s.
Proof. destruct s; cbn; now rewrite ?length_map. Qed.

End Histograms.

Section Dataframes.

Lemma lookup_assign_same (k : string) (v : Series)
  (cols : list (string * Series)) :
  lookup k (assign k v cols) = Some v.
Proof.
  induction cols as [|[k' w] r IH]; cbn.
  - now rewrite String.eqb_refl.
  - destruct (String.eqb k' k) eqn:E; cbn; rewrite E; [reflexivity | exact IH].
Qed.

Lemma lookup_assign_other (k k' : string) (v : Series)
  (cols : list (string * Series)) :
  k' <> k -> lookup k' (assign k v cols) = lookup k' cols.
Proof.
  intro N. induction cols as [|[j w] r IH]; cbn.
  - apply String.eqb_neq in N. rewrite String.eqb_sym in N. now rewrite N.
  - destruct (String.eqb j k) eqn:E; cbn.
    + apply String.eqb_eq in E. subst j.
      assert (F : String.eqb k k' = false).
      { apply String.eqb_neq. congruence. }
      now rewrite F.
    + destruct (String.eqb j k'); [reflexivity | exact IH].
Qed.

Lemma getitem_setitem_same (d : DataFrame) (k : string) (v : Series) :
  getitem (setitem d k v) k = Ok v.
Proof. unfold getitem, setitem; cbn. now rewrite lookup_assign_same. Qed.

Lemma getitem_setitem_other (d : DataFrame) (k k' : string) (v : Series) :
  k' <> k -> getitem (setitem d k v) k' = getitem d k'.
Proof.
  intro N. unfold getitem, setitem; cbn. now rewrite lookup_assign_other.
Qed.

Lemma index_setitem (d : DataFrame) (k : string) (v : Series) :
  index (setitem d k v) = index d.
Proof. reflexivity. Qed.

(** A column that can be read stays readable after an assignment. *)
Lemma getitem_setitem_present (d : DataFrame) (k k' : string)
  (v s : Series) :
  getitem d k' = Ok s -> exists s', getitem (setitem d k v) k' = Ok s'.
Proof.
  intro H. destruct (string_dec k' k) as [E|N].
  - subst k'. exists v. apply getitem_setitem_same.
  - exists s. now rewrite getitem_setitem_other.
Qed.

(** A column read after an assignment is the assigned one or was there. *)
Lemma getitem_setitem_inv (d : DataFrame) (k k' : string) (v s : Series) :
  getitem (setitem d k v) k' = Ok s ->
  (k' = k /\ s = v) \/ (k' <> k /\ getitem d k' = Ok s).
Proof.
  intro H. destruct (string_dec k' k) as [E|N].
  - subst k'. rewrite getitem_setitem_same in H. left. split; congruence.
  - right. split; [exact N|]. now rewrite getitem_setitem_other in H.
Qed.

Lemma getitem_Ok_lookup (d : DataFrame) (k : string) (s : Series) :
  getitem d k = Ok s <-> lookup k (columns d) = Some s.
Proof.
  unfold getitem. destruct (lookup k (columns d)); split; congruence.
Qed.

Lemma getitem_Raise (d : DataFrame) (k : string) (e : exn) :
  getitem d k = Raise e -> lookup k (columns d) = None /\ e = KeyError k.
Proof.
  unfold getitem. destruct (lookup k (columns d)); [discriminate|].
  intro H. split; congruence.
Qed.

End Dataframes.

Section HistPlots.

Lemma create_hist_plot_one (self : FaultCodeOneReport.t)
  (oc dc : option string) (d : DataFrame) (flag : Series) :
  getitem d (default "fc1_flag" oc) = Ok flag ->
  FaultCodeOneReport.create_hist_plot self oc dc d
  = (Ok {| fig_x := [];
           fig_axes :=
             [ {| lines := [];
                  bars :=
                    hist (dropna (values (hour_where (index d) (eq_1 flag))));
                  xlabel := "24 Hour Number in Day";
                  ylabel := "Frequency";
                  title := "Hour-Of-Day When Fault Flag 1 is TRUE" |} ] |},
     setitem d "hour_of_the_day_fc1" (hour_where (index d) (eq_1 flag))).
Proof.
  intro H. unfold FaultCodeOneReport.create_hist_plot, bind, df_index, df_get,
    df_set, ret.
  rewrite H, getitem_setitem_same. reflexivity.
Qed.

Lemma create_hist_plot_two (self : FaultCodeTwoReport.t)
  (oc mc : option string) (d : DataFrame) (flag : Series) :
  getitem d (default "fc2_flag" oc) = Ok flag ->
  FaultCodeTwoReport.create_hist_plot self oc mc d
  = (Ok {| fig_x := [];
           fig_axes :=
             [ {| lines := [];
                  bars :=
                    hist (dropna (values (hour_where (index d) (eq_1 flag))));
                  xlabel := "24 Hour Number in Day";
                  ylabel := "Frequency";
                  title := "Hour-Of-Day When Fault Flag 2 is TRUE" |} ] |},
     setitem d "hour_of_the_day_fc2" (hour_where (index d) (eq_1 flag))).
Proof.
  intro H. unfold FaultCodeTwoReport.create_hist_plot, bind, df_index, df_get,
    df_set, ret.
  rewrite H, getitem_setitem_same. reflexivity.
Qed.

(** The bars of a histogram of the hours of the flagged rows. *)
Lemma hour_bars (idx : list Z) (flag : Series) :
  size flag = List.length idx ->
  let b := hist (dropna (values (hour_where idx (eq_1 flag)))) in
  b = hist (map (fun t => inject_Z (hour t)) (select idx (eq_1 flag)))
  /\ List.length b = 10%nat
  /\ zsum b = Z.of_nat (count_true (eq_1 flag))
  /\ (count_true (eq_1 flag) = 0%nat -> b = repeat 0 10).
Proof.
  intros L b. subst b.
  rewrite dropna_hour_where by now rewrite length_eq_1.
  assert (C : List.length (select idx (eq_1 flag)) = count_true (eq_1 flag)).
  { apply length_select. now rewrite length_eq_1. }
  split; [reflexivity|]. split; [apply hist_length|]. split.
  - now rewrite hist_total, length_map, C.
  - intro Z. rewrite Z in C. apply length_zero_iff_nil in C. now rewrite C.
Qed.

End HistPlots.

Section Reports.

Arguments getitem : simpl never.
Arguments setitem : simpl never.
Arguments FaultCodeOneReport.create_fan_plot : simpl never.
Arguments FaultCodeOneReport.create_hist_plot : simpl never.
Arguments FaultCodeOneReport.summarize_fault_times : simpl never.
Arguments FaultCodeTwoReport.create_plot : simpl never.
Arguments FaultCodeTwoReport.create_hist_plot : simpl never.
Arguments FaultCodeTwoReport.summarize_fault_times : simpl never.
Arguments std_eq_0 : simpl never.
Arguments fgt : simpl never.
Arguments flt : simpl never.
Arguments isnan : simpl never.

Lemma bind_eq {S A B : Type} (m : M S A) (k : A -> M S B) (s : S) :
  bind m k s
  = match m s with
    | (Ok a, s') => k a s'
    | (Raise e, s') => (Raise e, s')
    end.
Proof. reflexivity. Qed.

(** One step of a run: the first action of a sequence is evaluated, the
    rest stays as it is written. *)
Ltac simp :=
  cbn [new_document add_heading add_picture add_paragraph
       add_paragraph_text set_style add_run append
       df document fst snd map_last app negb].

Ltac step := rewrite bind_eq; simp.

Ltac run := simp; repeat step.

Ltac stopped := split; [reflexivity | split; [reflexivity | discriminate]].

(** [create_report] of fault code 1, case by case: it stops at the first
    step that raises, and returns the report laid out from the values of
    the steps otherwise. *)
Lemma create_report_one_cases (self : FaultCodeOneReport.t) (path : string)
  (oc dc : option string) (now : string) (d : DataFrame) (doc0 : Document) :
  let run :=
    FaultCodeOneReport.create_report self path oc dc now
      {| df := d; document := doc0 |} in
  match FaultCodeOneReport.create_fan_plot self oc d with
  | (Raise e, d1) => aborted run e d1
  | (Ok fig, d1) =>
      match FaultCodeOneReport.summarize_fault_times self d1 oc with
      | Raise e => aborted run e d1
      | Ok s =>
          match FaultCodeOneReport.create_hist_plot self oc dc d1 with
          | (Raise e, d2) => aborted run e d2
          | (Ok h, d2) =>
              match
                getitem d2 (FaultCodeOneReport.supply_vfd_speed_col self)
              with
              | Raise e => aborted run e d2
              | Ok fan =>
                  match
                    getitem d2 (FaultCodeOneReport.duct_static_col self)
                  with
                  | Raise e => aborted run e d2
                  | Ok st =>
                      match
                        getitem d2
                          (FaultCodeOneReport.duct_static_setpoint_col self)
                      with
                      | Raise e => aborted run e d2
                      | Ok sp =>
                          returned run
                            (LayoutOne.report fig s h fan st sp now) d2
                      end
                  end
              end
          end
      end
  end.
Proof.
  intro run. subst run. unfold aborted, returned.
  unfold FaultCodeOneReport.create_report, on_df, read_df, ret.
  run.
  destruct (FaultCodeOneReport.create_fan_plot self oc d)
    as [[fig|e] d1]; [|stopped].
  run.
  destruct (FaultCodeOneReport.summarize_fault_times self d1 oc)
    as [[[[[[td th] hm] pt] pf] fs]|e]; [|stopped].
  run.
  destruct (FaultCodeOneReport.create_hist_plot self oc dc d1)
    as [[h|e] d2]; [|stopped].
  run.
  unfold LayoutOne.report, LayoutOne.commentary_part,
    LayoutOne.suggestions_part.
  cbn [SummaryOne.flag_true_duct_static SummaryOne.percent_true].
  destruct (isnan fs); cbn [negb]; run;
    (destruct (getitem d2 (FaultCodeOneReport.supply_vfd_speed_col self))
      as [fan|e]; [|stopped]);
    run;
    (destruct (getitem d2 (FaultCodeOneReport.duct_static_col self))
      as [st|e]; [|stopped]);
    run;
    (destruct (getitem d2 (FaultCodeOneReport.duct_static_setpoint_col self))
      as [sp|e] eqn:Hsp; [|stopped]);
    run;
    destruct (fgt pt (Fin 5)); run; rewrite Hsp; run;
    destruct (std_eq_0 sp); run; reflexivity.
Qed.

(** [create_report] of fault code 2, case by case. *)
Lemma create_report_two_cases (self : FaultCodeTwoReport.t) (path : string)
  (oc mc : option string) (now : string) (d : DataFrame) (doc0 : Document) :
  let run :=
    FaultCodeTwoReport.create_report self path oc mc now
      {| df := d; document := doc0 |} in
  match FaultCodeTwoReport.create_plot self oc d with
  | (Raise e, d1) => aborted run e d1
  | (Ok fig, d1) =>
      match FaultCodeTwoReport.summarize_fault_times self d1 oc with
      | Raise e => aborted run e d1
      | Ok s =>
          match FaultCodeTwoReport.create_hist_plot self oc mc d1 with
          | (Raise e, d2) => aborted run e d2
          | (Ok h, d2) =>
              match getitem d2 (FaultCodeTwoReport.mat_col self) with
              | Raise e => aborted run e d2
              | Ok mat =>
                  match getitem d2 (FaultCodeTwoReport.rat_col self) with
                  | Raise e => aborted run e d2
                  | Ok rat =>
                      match getitem d2 (FaultCodeTwoReport.oat_col self) with
                      | Raise e => aborted run e d2
                      | Ok oat =>
                          returned run
                            (LayoutTwo.report fig s h mat rat oat now) d2
                      end
                  end
              end
          end
      end
  end.
Proof.
  intro run. subst run. unfold aborted, returned.
  unfold FaultCodeTwoReport.create_report, on_df, read_df, ret.
  run.
  destruct (FaultCodeTwoReport.create_plot self oc d)
    as [[fig|e] d1]; [|stopped].
  run.
  destruct (FaultCodeTwoReport.summarize_fault_times self d1 oc)
    as [[[[[[[[td th] hm] pt] pf] fm] fo] fr]|e]; [|stopped].
  run.
  destruct (FaultCodeTwoReport.create_hist_plot self oc mc d1)
    as [[h|e] d2]; [|stopped].
  run.
  unfold LayoutTwo.report, LayoutTwo.commentary_part,
    LayoutTwo.suggestions_part.
  cbn [SummaryTwo.flag_true_mat SummaryTwo.flag_true_oat
       SummaryTwo.flag_true_rat SummaryTwo.percent_true].
  destruct (isnan fm); cbn [negb]; run;
    (destruct (getitem d2 (FaultCodeTwoReport.mat_col self))
      as [mat|e]; [|stopped]);
    run;
    (destruct (getitem d2 (FaultCodeTwoReport.rat_col self))
      as [rat|e]; [|stopped]);
    run;
    (destruct (getitem d2 (FaultCodeTwoReport.oat_col self))
      as [oat|e]; [|stopped]);
    run;
    destruct (flt pt (Fin 5)); run; reflexivity.
Qed.

(** The time-series plots, case by case. *)
Lemma create_fan_plot_cases (self : FaultCodeOneReport.t)
  (oc : option string) (d : DataFrame) :
  let run := FaultCodeOneReport.create_fan_plot self oc d in
  let key := default "fc1_flag" oc in
  match getitem d key with
  | Raise e => run = (Raise e, d)
  | Ok flag =>
      match astype_int flag with
      | Raise e => run = (Raise e, d)
      | Ok fi =>
          let d1 := setitem d key fi in
          match getitem d1 (FaultCodeOneReport.duct_static_col self) with
          | Raise e => run = (Raise e, d1)
          | Ok st =>
              match
                getitem d1 (FaultCodeOneReport.supply_vfd_speed_col self)
              with
              | Raise e => run = (Raise e, d1)
              | Ok fan => exists fig, run = (Ok fig, d1)
              end
          end
      end
  end.
Proof.
  intros run key. subst run key.
  unfold FaultCodeOneReport.create_fan_plot, bind, df_get, df_set, df_index,
    lift, ret.
  destruct (getitem d (default "fc1_flag" oc)) as [flag|e]; [|reflexivity].
  destruct (astype_int flag) as [fi|e]; [|reflexivity].
  cbv zeta.
  destruct (getitem _ (FaultCodeOneReport.duct_static_col self)) as [st|e];
    [|reflexivity].
  destruct (getitem _ (FaultCodeOneReport.supply_vfd_speed_col self))
    as [fan|e]; [|reflexivity].
  rewrite getitem_setitem_same. eexists. reflexivity.
Qed.

Lemma create_plot_cases (self : FaultCodeTwoReport.t)
  (oc : option string) (d : DataFrame) :
  let run := FaultCodeTwoReport.create_plot self oc d in
  let key := default "fc2_flag" oc in
  match getitem d key with
  | Raise e => run = (Raise e, d)
  | Ok flag =>
      match astype_int flag with
      | Raise e => run = (Raise e, d)
      | Ok fi =>
          let d1 := setitem d key fi in
          match getitem d1 (FaultCodeTwoReport.mat_col self) with
          | Raise e => run = (Raise e, d1)
          | Ok mat =>
              match getitem d1 (FaultCodeTwoReport.rat_col self) with
              | Raise e => run = (Raise e, d1)
              | Ok rat =>
                  match getitem d1 (FaultCodeTwoReport.oat_col self) with
                  | Raise e => run = (Raise e, d1)
                  | Ok oat => exists fig, run = (Ok fig, d1)
                  end
              end
          end
      end
  end.
Proof.
  intros run key. subst run key.
  unfold FaultCodeTwoReport.create_plot, bind, df_get, df_set, df_index,
    lift, ret.
  destruct (getitem d (default "fc2_flag" oc)) as [flag|e]; [|reflexivity].
  destruct (astype_int flag) as [fi|e]; [|reflexivity].
  cbv zeta.
  destruct (getitem _ (FaultCodeTwoReport.mat_col self)) as [mat|e];
    [|reflexivity].
  destruct (getitem _ (FaultCodeTwoReport.rat_col self)) as [rat|e];
    [|reflexivity].
  destruct (getitem _ (FaultCodeTwoReport.oat_col self)) as [oat|e];
    [|reflexivity].
  rewrite getitem_setitem_same. eexists. reflexivity.
Qed.

Lemma create_hist_plot_one_raise (self : FaultCodeOneReport.t)
  (oc dc : option string) (d : DataFrame) (e : exn) :
  getitem d (default "fc1_flag" oc) = Raise e ->
  FaultCodeOneReport.create_hist_plot self oc dc d = (Raise e, d).
Proof.
  intro H. unfold FaultCodeOneReport.create_hist_plot, bind, df_index, df_get.
  now rewrite H.
Qed.

End Reports.

Section ReportOutcomes.

(** A report of fault code 1 that is returned was laid out from the
    values of the steps, each of which succeeded. *)
Lemma create_report_one_returns (self : FaultCodeOneReport.t) (path : string)
  (oc dc : option string) (now : string) (d : DataFrame) (doc0 doc : Document)
  (h' : heap) :
  FaultCodeOneReport.create_report self path oc dc now
    {| df := d; document := doc0 |} = (Ok doc, h') ->
  exists fig d1 s h d2 fan st sp,
    FaultCodeOneReport.create_fan_plot self oc d = (Ok fig, d1)
    /\ FaultCodeOneReport.summarize_fault_times self d1 oc = Ok s
    /\ FaultCodeOneReport.create_hist_plot self oc dc d1 = (Ok h, d2)
    /\ getitem d2 (FaultCodeOneReport.supply_vfd_speed_col self) = Ok fan
    /\ getitem d2 (FaultCodeOneReport.duct_static_col self) = Ok st
    /\ getitem d2 (FaultCodeOneReport.duct_static_setpoint_col self) = Ok sp
    /\ doc = LayoutOne.report fig s h fan st sp now
    /\ h' = {| df := d2; document := doc |}.
Proof.
  intro R. pose proof (create_report_one_cases self path oc dc now d doc0) as C.
  cbv zeta in C. rewrite R in C. unfold aborted, returned in C.
  destruct (FaultCodeOneReport.create_fan_plot self oc d) as [[fig|e] d1] eqn:Q1;
    [|now destruct C].
  destruct (FaultCodeOneReport.summarize_fault_times self d1 oc) as [s|e] eqn:Q2;
    [|now destruct C].
  destruct (FaultCodeOneReport.create_hist_plot self oc dc d1) as [[h|e] d2] eqn:Q3;
    [|now destruct C].
  destruct (getitem d2 (FaultCodeOneReport.supply_vfd_speed_col self))
    as [fan|e] eqn:Q4; [|now destruct C].
  destruct (getitem d2 (FaultCodeOneReport.duct_static_col self))
    as [st|e] eqn:Q5; [|now destruct C].
  destruct (getitem d2 (FaultCodeOneReport.duct_static_setpoint_col self))
    as [sp|e] eqn:Q6; [|now destruct C].
  inversion C; subst. exists fig, d1, s, h, d2, fan, st, sp.
  repeat split; assumption || reflexivity.
Qed.

Lemma create_report_two_returns (self : FaultCodeTwoReport.t) (path : string)
  (oc mc : option string) (now : string) (d : DataFrame) (doc0 doc : Document)
  (h' : heap) :
  FaultCodeTwoReport.create_report self path oc mc now
    {| df := d; document := doc0 |} = (Ok doc, h') ->
  exists fig d1 s h d2 mat rat oat,
    FaultCodeTwoReport.create_plot self oc d = (Ok fig, d1)
    /\ FaultCodeTwoReport.summarize_fault_times self d1 oc = Ok s
    /\ FaultCodeTwoReport.create_hist_plot self oc mc d1 = (Ok h, d2)
    /\ getitem d2 (FaultCodeTwoReport.mat_col self) = Ok mat
    /\ getitem d2 (FaultCodeTwoReport.rat_col self) = Ok rat
    /\ getitem d2 (FaultCodeTwoReport.oat_col self) = Ok oat
    /\ doc = LayoutTwo.report fig s h mat rat oat now
    /\ h' = {| df := d2; document := doc |}.
Proof.
  intro R. pose proof (create_report_two_cases self path oc mc now d doc0) as C.
  cbv zeta in C. rewrite R in C. unfold aborted, returned in C.
  destruct (FaultCodeTwoReport.create_plot self oc d) as [[fig|e] d1] eqn:Q7;
    [|now destruct C].
  destruct (FaultCodeTwoReport.summarize_fault_times self d1 oc) as [s|e] eqn:Q8;
    [|now destruct C].
  destruct (FaultCodeTwoReport.create_hist_plot self oc mc d1) as [[h|e] d2] eqn:Q9;
    [|now destruct C].
  destruct (getitem d2 (FaultCodeTwoReport.mat_col self))
    as [mat|e] eqn:Q10; [|now destruct C].
  destruct (getitem d2 (FaultCodeTwoReport.rat_col self))
    as [rat|e] eqn:Q11; [|now destruct C].
  destruct (getitem d2 (FaultCodeTwoReport.oat_col self))
    as [oat|e] eqn:Q12; [|now destruct C].
  inversion C; subst. exists fig, d1, s, h, d2, mat, rat, oat.
  repeat split; assumption || reflexivity.
Qed.

(** With the flag column castable and the three sensor columns in the
    dataframe, every step of the report of fault code 1 succeeds. *)
Lemma create_report_one_total (self : FaultCodeOneReport.t) (path : string)
  (oc dc : option string) (now : string) (d : DataFrame) (doc0 : Document)
  (flag fi c1 c2 c3 : Series) :
  getitem d (default "fc1_flag" oc) = Ok flag ->
  astype_int flag = Ok fi ->
  getitem d (FaultCodeOneReport.duct_static_col self) = Ok c1 ->
  getitem d (FaultCodeOneReport.supply_vfd_speed_col self) = Ok c2 ->
  getitem d (FaultCodeOneReport.duct_static_setpoint_col self) = Ok c3 ->
  let d1 := setitem d (default "fc1_flag" oc) fi in
  let d2 := setitem d1 "hour_of_the_day_fc1"
              (hour_where (index d) (eq_1 fi)) in
  exists fig s h fan st sp,
    FaultCodeOneReport.create_fan_plot self oc d = (Ok fig, d1)
    /\ getitem d1 (default "fc1_flag" oc) = Ok fi
    /\ FaultCodeOneReport.summarize_fault_times self d1 oc = Ok s
    /\ FaultCodeOneReport.create_hist_plot self oc dc d1 = (Ok h, d2)
    /\ getitem d2 (FaultCodeOneReport.duct_static_setpoint_col self) = Ok sp
    /\ FaultCodeOneReport.create_report self path oc dc now
         {| df := d; document := doc0 |}
       = (Ok (LayoutOne.report fig s h fan st sp now),
          {| df := d2; document := LayoutOne.report fig s h fan st sp now |}).
Proof.
  intros Hf Hc H1 H2 H3 d1 d2.
  destruct (getitem_setitem_present d (default "fc1_flag" oc) _ fi _ H1)
    as [st1 Hst1].
  destruct (getitem_setitem_present d (default "fc1_flag" oc) _ fi _ H2)
    as [fan1 Hfan1].
  destruct (getitem_setitem_present d (default "fc1_flag" oc) _ fi _ H3)
    as [sp1 Hsp1].
  fold d1 in Hst1, Hfan1, Hsp1.
  assert (Hfi : getitem d1 (default "fc1_flag" oc) = Ok fi)
    by apply getitem_setitem_same.
  pose proof (create_fan_plot_cases self oc d) as P. cbv zeta in P.
  rewrite Hf, Hc in P. fold d1 in P. rewrite Hst1, Hfan1 in P.
  destruct P as [fig P].
  pose proof (summarize_one self d1 oc fi st1 Hfi Hst1) as S.
  pose proof (create_hist_plot_one self oc dc d1 fi Hfi) as Hh.
  change (index d1) with (index d) in Hh. fold d2 in Hh.
  destruct (getitem_setitem_present d1 "hour_of_the_day_fc1" _
              (hour_where (index d) (eq_1 fi)) _ Hst1) as [st2 Hst2].
  destruct (getitem_setitem_present d1 "hour_of_the_day_fc1" _
              (hour_where (index d) (eq_1 fi)) _ Hfan1) as [fan2 Hfan2].
  destruct (getitem_setitem_present d1 "hour_of_the_day_fc1" _
              (hour_where (index d) (eq_1 fi)) _ Hsp1) as [sp2 Hsp2].
  fold d2 in Hst2, Hfan2, Hsp2.
  pose proof (create_report_one_cases self path oc dc now d doc0) as C.
  cbv zeta in C. rewrite P, S, Hh, Hfan2, Hst2, Hsp2 in C.
  do 6 eexists. repeat (split; [eassumption|]). exact C.
Qed.

Lemma create_report_two_total (self : FaultCodeTwoReport.t) (path : string)
  (oc mc : option string) (now : string) (d : DataFrame) (doc0 : Document)
  (flag fi c1 c2 c3 : Series) :
  getitem d (default "fc2_flag" oc) = Ok flag ->
  astype_int flag = Ok fi ->
  getitem d (FaultCodeTwoReport.mat_col self) = Ok c1 ->
  getitem d (FaultCodeTwoReport.rat_col self) = Ok c2 ->
  getitem d (FaultCodeTwoReport.oat_col self) = Ok c3 ->
  let d1 := setitem d (default "fc2_flag" oc) fi in
  let d2 := setitem d1 "hour_of_the_day_fc2"
              (hour_where (index d) (eq_1 fi)) in
  exists fig s h mat rat oat,
    FaultCodeTwoReport.create_plot self oc d = (Ok fig, d1)
    /\ getitem d1 (default "fc2_flag" oc) = Ok fi
    /\ FaultCodeTwoReport.summarize_fault_times self d1 oc = Ok s
    /\ FaultCodeTwoReport.create_hist_plot self oc mc d1 = (Ok h, d2)
    /\ FaultCodeTwoReport.create_report self path oc mc now
         {| df := d; document := doc0 |}
       = (Ok (LayoutTwo.report fig s h mat rat oat now),
          {| df := d2; document := LayoutTwo.report fig s h mat rat oat now |}).
Proof.
  intros Hf Hc H1 H2 H3 d1 d2.
  destruct (getitem_setitem_present d (default "fc2_flag" oc) _ fi _ H1)
    as [mat1 Hmat1].
  destruct (getitem_setitem_present d (default "fc2_flag" oc) _ fi _ H2)
    as [rat1 Hrat1].
  destruct (getitem_setitem_present d (default "fc2_flag" oc) _ fi _ H3)
    as [oat1 Hoat1].
  fold d1 in Hmat1, Hrat1, Hoat1.
  assert (Hfi : getitem d1 (default "fc2_flag" oc) = Ok fi)
    by apply getitem_setitem_same.
  pose proof (create_plot_cases self oc d) as P. cbv zeta in P.
  rewrite Hf, Hc in P. fold d1 in P. rewrite Hmat1, Hrat1, Hoat1 in P.
  destruct P as [fig P].
  pose proof (summarize_two self d1 oc fi mat1 oat1 rat1 Hfi Hmat1 Hoat1 Hrat1)
    as S.
  pose proof (create_hist_plot_two self oc mc d1 fi Hfi) as Hh.
  change (index d1) with (index d) in Hh. fold d2 in Hh.
  destruct (getitem_setitem_present d1 "hour_of_the_day_fc2" _
              (hour_where (index d) (eq_1 fi)) _ Hmat1) as [mat2 Hmat2].
  destruct (getitem_setitem_present d1 "hour_of_the_day_fc2" _
              (hour_where (index d) (eq_1 fi)) _ Hrat1) as [rat2 Hrat2].
  destruct (getitem_setitem_present d1 "hour_of_the_day_fc2" _
              (hour_where (index d) (eq_1 fi)) _ Hoat1) as [oat2 Hoat2].
  fold d2 in Hmat2, Hrat2, Hoat2.
  pose proof (create_report_two_cases self path oc mc now d doc0) as C.
  cbv zeta in C. rewrite P, S, Hh, Hmat2, Hrat2, Hoat2 in C.
  do 6 eexists. repeat (split; [eassumption|]). exact C.
Qed.

End ReportOutcomes.

Section Paragraphs.



End Paragraphs.

(** Splits a membership in an explicit list of blocks and closes the cases
    where the two blocks differ. *)
Ltac no_block H :=
  repeat
    match type of H with
    | _ \/ _ => destruct H as [H|H]; [try discriminate H|]
    | False => contradiction
    end.


Section Suggestions.



(** The one-sentence bullets of a report of fault code 1 are the two
    suggestions. *)
Lemma suggestion_bullets_one (fig : Figure) (s : FaultCodeOneReport.summary)
  (h : Figure) (fan st sp : Series) (now t : string) :
  In (bullet [Str t]) (LayoutOne.report fig s h fan st sp now)
  <-> t = (if fgt (SummaryOne.percent_true s) (Fin 5)
           then FaultCodeOneReport.high_text
           else FaultCodeOneReport.low_text)
      \/ t = (if std_eq_0 sp then FaultCodeOneReport.no_reset_text
              else FaultCodeOneReport.reset_text).
Proof.
  unfold LayoutOne.report. rewrite !in_app_iff. split.
  - unfold LayoutOne.commentary_part.
    destruct (isnan (SummaryOne.flag_true_duct_static s));
      unfold LayoutOne.commentary, bullet, spacer, footer; cbn;
      intro H; no_block H; injection H as <-; auto.
  - intros [E|E]; subst t; do 6 right; left; cbn; auto.
Qed.


Lemma length_dropna (l : list float) :
  (List.length (dropna l) <= List.length l)%nat.
Proof.
  induction l as [|[|q] r IH]; cbn [dropna List.length]; lia.
Qed.

Lemma length_values (s : Series) : List.length (values s) = size s.
Proof. destruct s; cbn; now rewrite ?length_map. Qed.

(** The standard deviation of at most one cell is NaN, and NaN is not 0. *)
Lemma nanvar_short (s : Series) :
  (size s <= 1)%nat -> isnan (nanvar (values s)) = true.
Proof.
  intro H. unfold nanvar.
  pose proof (length_dropna (values s)) as L. rewrite length_values in L.
  destruct (Nat.leb_spec (List.length (dropna (values s))) 1);
    [reflexivity | lia].
Qed.

Lemma std_nan_not_0 (s : Series) :
  isnan (nanvar (values s)) = true -> std_eq_0 s = false.
Proof.
  unfold nanvar, std_eq_0, std.
  destruct (List.length (dropna (values s)) <=? 1)%nat; [|discriminate].
  intros _. reflexivity.
Qed.

End Suggestions.

Section Frames.

Lemma same_except_refl (keys : list string) (d : DataFrame) :
  same_except keys d d.
Proof. split; reflexivity. Qed.

Lemma same_except_setitem (keys : list string) (d d' : DataFrame)
  (k : string) (v : Series) :
  In k keys -> same_except keys d d' -> same_except keys d (setitem d' k v).
Proof.
  intros K [I C]. split; [exact I|]. intros c N. cbn [setitem columns].
  rewrite lookup_assign_other; [now apply C|]. intros ->. now apply N.
Qed.

(** What [create_fan_plot] leaves of the dataframe: as it was, or with the
    flag column replaced by its cast to integers. *)
Lemma create_fan_plot_frame (self : FaultCodeOneReport.t)
  (oc : option string) (d d1 : DataFrame) (r : result Figure) :
  FaultCodeOneReport.create_fan_plot self oc d = (r, d1) ->
  d1 = d
  \/ exists flag fi,
      getitem d (default "fc1_flag" oc) = Ok flag
      /\ astype_int flag = Ok fi
      /\ d1 = setitem d (default "fc1_flag" oc) fi.
Proof.
  intro R. pose proof (create_fan_plot_cases self oc d) as C.
  cbv zeta in C. rewrite R in C.
  destruct (getitem d (default "fc1_flag" oc)) as [flag|e];
    [|left; congruence].
  destruct (astype_int flag) as [fi|e] eqn:A; [|left; congruence].
  right. exists flag, fi. repeat split; try assumption.
  destruct (getitem _ (FaultCodeOneReport.duct_static_col self));
    [|congruence].
  destruct (getitem _ (FaultCodeOneReport.supply_vfd_speed_col self));
    [|congruence].
  destruct C as [fig C]. congruence.
Qed.

(** A figure from [create_fan_plot]: the columns it read. *)
Lemma create_fan_plot_returns (self : FaultCodeOneReport.t)
  (oc : option string) (d d1 : DataFrame) (fig : Figure) :
  FaultCodeOneReport.create_fan_plot self oc d = (Ok fig, d1) ->
  exists flag fi st fan,
    getitem d (default "fc1_flag" oc) = Ok flag
    /\ astype_int flag = Ok fi
    /\ d1 = setitem d (default "fc1_flag" oc) fi
    /\ getitem d1 (FaultCodeOneReport.duct_static_col self) = Ok st
    /\ getitem d1 (FaultCodeOneReport.supply_vfd_speed_col self) = Ok fan.
Proof.
  intro R. pose proof (create_fan_plot_cases self oc d) as C.
  cbv zeta in C. rewrite R in C.
  destruct (getitem d (default "fc1_flag" oc)) as [flag|e]; [|discriminate].
  destruct (astype_int flag) as [fi|e] eqn:A; [|discriminate].
  destruct (getitem _ (FaultCodeOneReport.duct_static_col self))
    as [st|e] eqn:S; [|discriminate].
  destruct (getitem _ (FaultCodeOneReport.supply_vfd_speed_col self))
    as [fan|e] eqn:F; [|discriminate].
  destruct C as [fig' C]. injection C as _ ->.
  exists flag, fi, st, fan. repeat split; assumption || reflexivity.
Qed.

(** What [create_hist_plot] leaves of the dataframe: as it was, or with the
    hour-of-day column assigned. *)
Lemma create_hist_plot_frame (self : FaultCodeOneReport.t)
  (oc dc : option string) (d d2 : DataFrame) (r : result Figure) :
  FaultCodeOneReport.create_hist_plot self oc dc d = (r, d2) ->
  d2 = d \/ exists v, d2 = setitem d "hour_of_the_day_fc1" v.
Proof.
  intro R. destruct (getitem d (default "fc1_flag" oc)) as [flag|e] eqn:G.
  - rewrite (create_hist_plot_one self oc dc d flag G) in R.
    right. eexists. injection R as _ <-. reflexivity.
  - rewrite (create_hist_plot_one_raise self oc dc d e G) in R.
    left. congruence.
Qed.

(** The dataframe a run of [create_report] leaves is that of its two
    plots. *)
Lemma create_report_one_df (self : FaultCodeOneReport.t) (path : string)
  (oc dc : option string) (now : string) (d : DataFrame) (doc0 : Document)
  (r : result Document) (h' : heap) :
  FaultCodeOneReport.create_report self path oc dc now
    {| df := d; document := doc0 |} = (r, h') ->
  exists r1 d1,
    FaultCodeOneReport.create_fan_plot self oc d = (r1, d1)
    /\ (df h' = d1
        \/ exists r2,
            FaultCodeOneReport.create_hist_plot self oc dc d1 = (r2, df h')).
Proof.
  intro R. pose proof (create_report_one_cases self path oc dc now d doc0) as C.
  cbv zeta in C. rewrite R in C. unfold aborted, returned in C. cbn [snd] in C.
  destruct (FaultCodeOneReport.create_fan_plot self oc d) as [[fig|e] d1];
    [|exists (Raise e), d1; split; [reflexivity | left; apply C]].
  exists (Ok fig), d1. split; [reflexivity|].
  destruct (FaultCodeOneReport.summarize_fault_times self d1 oc) as [s|e];
    [|left; apply C].
  right.
  destruct (FaultCodeOneReport.create_hist_plot self oc dc d1) as [[h|e] d2];
    [|exists (Raise e); f_equal; symmetry; apply C].
  exists (Ok h). f_equal. symmetry.
  destruct (getitem d2 (FaultCodeOneReport.supply_vfd_speed_col self));
    [|apply C].
  destruct (getitem d2 (FaultCodeOneReport.duct_static_col self));
    [|apply C].
  destruct (getitem d2 (FaultCodeOneReport.duct_static_setpoint_col self));
    [|apply C].
  injection C as _ ->. reflexivity.
Qed.

Lemma astype_int_values (flag fi : Series) :
  astype_int flag = Ok fi ->
  (forall l, flag = SBool l -> fi = SInt (map Z.b2z l))
  /\ (forall l, flag = SInt l -> fi = flag).
Proof.
  intro A. split; intros l ->; cbn in A; congruence.
Qed.

End Frames.

Section Aborts.

Lemma create_report_one_raise (self : FaultCodeOneReport.t) (path : string)
  (oc dc : option string) (now : string) (d : DataFrame) (doc0 : Document)
  (e : exn) (h' : heap) :
  FaultCodeOneReport.create_report self path oc dc now
    {| df := d; document := doc0 |} = (Raise e, h') ->
  document h' <> [].
Proof.
  intro R. pose proof (create_report_one_cases self path oc dc now d doc0) as C.
  cbv zeta in C. rewrite R in C. unfold aborted, returned in C. cbn [snd] in C.
  destruct (FaultCodeOneReport.create_fan_plot self oc d) as [[fig|e1] d1];
    [|apply C].
  destruct (FaultCodeOneReport.summarize_fault_times self d1 oc) as [s|e2];
    [|apply C].
  destruct (FaultCodeOneReport.create_hist_plot self oc dc d1) as [[h|e3] d2];
    [|apply C].
  destruct (getitem d2 (FaultCodeOneReport.supply_vfd_speed_col self));
    [|apply C].
  destruct (getitem d2 (FaultCodeOneReport.duct_static_col self));
    [|apply C].
  destruct (getitem d2 (FaultCodeOneReport.duct_static_setpoint_col self));
    [|apply C].
  discriminate C.
Qed.

(** The columns a returned report of fault code 1 has read were in the
    caller's dataframe, the setpoint column unless it bears the name of the
    hour-of-day column. *)
Lemma create_report_one_columns (self : FaultCodeOneReport.t) (path : string)
  (oc dc : option string) (now : string) (d : DataFrame) (doc0 doc : Document)
  (h' : heap) :
  FaultCodeOneReport.create_report self path oc dc now
    {| df := d; document := doc0 |} = (Ok doc, h') ->
  lookup (default "fc1_flag" oc) (columns d) <> None
  /\ lookup (FaultCodeOneReport.duct_static_col self) (columns d) <> None
  /\ lookup (FaultCodeOneReport.supply_vfd_speed_col self) (columns d) <> None
  /\ (FaultCodeOneReport.duct_static_setpoint_col self
      <> "hour_of_the_day_fc1" ->
      lookup (FaultCodeOneReport.duct_static_setpoint_col self) (columns d)
      <> None).
Proof.
  intro R.
  destruct (create_report_one_returns _ _ _ _ _ _ _ _ _ R)
    as (fig & d1 & s & h & d2 & fan & st & sp & Hp & _ & Hh & _ & _ & Hsp
        & _ & _).
  destruct (create_fan_plot_returns _ _ _ _ _ Hp)
    as (flag & fi & st1 & fan1 & Hf & Hc & -> & Hst1 & Hfan1).
  apply getitem_Ok_lookup in Hf.
  assert (P : forall c x,
             getitem (setitem d (default "fc1_flag" oc) fi) c = Ok x ->
             lookup c (columns d) <> None).
  { intros c x G. destruct (getitem_setitem_inv _ _ _ _ _ G) as [[-> _]|[_ G']].
    - congruence.
    - apply getitem_Ok_lookup in G'. congruence. }
  split; [congruence|]. split; [exact (P _ _ Hst1)|].
  split; [exact (P _ _ Hfan1)|]. intro N.
  destruct (create_hist_plot_frame _ _ _ _ _ _ Hh) as [->|[v ->]].
  - exact (P _ _ Hsp).
  - rewrite getitem_setitem_other in Hsp by exact N. exact (P _ _ Hsp).
Qed.

End Aborts.

(** ** The time-series plots and the runs that stop in them *)

Section Casts.

Lemma assign_assign (k : string) (v : Series)
  (cols : list (string * Series)) :
  assign k v (assign k v cols) = assign k v cols.
Proof.
  induction cols as [|[j w] r IH]; cbn.
  - now rewrite String.eqb_refl.
  - destruct (String.eqb j k) eqn:E; cbn; rewrite E; [reflexivity|].
    now rewrite IH.
Qed.

Lemma setitem_setitem (d : DataFrame) (k : string) (v : Series) :
  setitem (setitem d k v) k v = setitem d k v.
Proof. unfold setitem; cbn. now rewrite assign_assign. Qed.

(** The cast of a column to integers is a column of integers, which a
    second cast leaves as it is. *)
Lemma astype_int_again (s fi : Series) :
  astype_int s = Ok fi -> astype_int fi = Ok fi.
Proof.
  destruct s as [l|l|l]; cbn; [| |destruct (all_finite l)]; intro H;
    try discriminate; injection H as <-; reflexivity.
Qed.

(** The cast of a boolean or integer column keeps the cells as numbers and
    the rows where they are 1. *)
Lemma astype_int_cells (s fi : Series) :
  integer_dtype s = true -> astype_int s = Ok fi ->
  values fi = values s /\ eq_1 fi = eq_1 s.
Proof.
  destruct s as [l|l|l]; cbn; intros D H; try discriminate;
    injection H as <-; cbn.
  - rewrite !map_map. split; [reflexivity|].
    induction l as [|b r IH]; [reflexivity|]. cbn [map]. rewrite IH.
    now destruct b.
  - split; reflexivity.
Qed.

Lemma create_fan_plot_run (self : FaultCodeOneReport.t)
  (oc : option string) (d : DataFrame) (flag fi st fan : Series) :
  getitem d (default "fc1_flag" oc) = Ok flag ->
  astype_int flag = Ok fi ->
  let d1 := setitem d (default "fc1_flag" oc) fi in
  getitem d1 (FaultCodeOneReport.duct_static_col self) = Ok st ->
  getitem d1 (FaultCodeOneReport.supply_vfd_speed_col self) = Ok fan ->
  FaultCodeOneReport.create_fan_plot self oc d
  = (Ok {| fig_x := index d;
           fig_axes :=
             [ plain_axes [{| line_y := st; line_label := "STATIC" |}]
                 "" "Inch WC" "";
               plain_axes [{| line_y := fan; line_label := "FAN" |}]
                 "" "%" "";
               plain_axes [{| line_y := fi; line_label := "Fault" |}]
                 "Date" "Fault Flags" "Fault Conditions 1 Plot" ] |},
     d1).
Proof.
  intros Hf Hc d1 Hs Hv.
  unfold FaultCodeOneReport.create_fan_plot, bind, df_get, df_set, df_index,
    lift, ret.
  rewrite Hf, Hc. fold d1. rewrite Hs, Hv. unfold d1.
  now rewrite getitem_setitem_same.
Qed.

Lemma create_plot_run (self : FaultCodeTwoReport.t)
  (oc : option string) (d : DataFrame) (flag fi mat rat oat : Series) :
  getitem d (default "fc2_flag" oc) = Ok flag ->
  astype_int flag = Ok fi ->
  let d1 := setitem d (default "fc2_flag" oc) fi in
  getitem d1 (FaultCodeTwoReport.mat_col self) = Ok mat ->
  getitem d1 (FaultCodeTwoReport.rat_col self) = Ok rat ->
  getitem d1 (FaultCodeTwoReport.oat_col self) = Ok oat ->
  FaultCodeTwoReport.create_plot self oc d
  = (Ok {| fig_x := index d;
           fig_axes :=
             [ plain_axes [{| line_y := mat; line_label := "Mix Temp" |};
                           {| line_y := rat; line_label := "Return Temp" |};
                           {| line_y := oat; line_label := "Out Temp" |}]
                 "" "°F" "";
               plain_axes [{| line_y := fi; line_label := "Fault" |}]
                 "Date" "Fault Flags" "Fault Conditions 2 Plot" ] |},
     d1).
Proof.
  intros Hf Hc d1 Hm Hr Ho.
  unfold FaultCodeTwoReport.create_plot, bind, df_get, df_set, df_index,
    lift, ret.
  rewrite Hf, Hc. fold d1. rewrite Hm, Hr, Ho. unfold d1.
  now rewrite getitem_setitem_same.
Qed.

Lemma create_plot_returns (self : FaultCodeTwoReport.t)
  (oc : option string) (d d1 : DataFrame) (fig : Figure) :
  FaultCodeTwoReport.create_plot self oc d = (Ok fig, d1) ->
  exists flag fi mat rat oat,
    getitem d (default "fc2_flag" oc) = Ok flag
    /\ astype_int flag = Ok fi
    /\ d1 = setitem d (default "fc2_flag" oc) fi
    /\ getitem d1 (FaultCodeTwoReport.mat_col self) = Ok mat
    /\ getitem d1 (FaultCodeTwoReport.rat_col self) = Ok rat
    /\ getitem d1 (FaultCodeTwoReport.oat_col self) = Ok oat.
Proof.
  intro R. pose proof (create_plot_cases self oc d) as C.
  cbv zeta in C. rewrite R in C.
  destruct (getitem d (default "fc2_flag" oc)) as [flag|e]; [|discriminate].
  destruct (astype_int flag) as [fi|e] eqn:A; [|discriminate].
  destruct (getitem _ (FaultCodeTwoReport.mat_col self))
    as [mat|e] eqn:M; [|discriminate].
  destruct (getitem _ (FaultCodeTwoReport.rat_col self))
    as [rat|e] eqn:Rt; [|discriminate].
  destruct (getitem _ (FaultCodeTwoReport.oat_col self))
    as [oat|e] eqn:O; [|discriminate].
  destruct C as [fig' C]. injection C as _ ->.
  exists flag, fi, mat, rat, oat. repeat split; assumption || reflexivity.
Qed.

(** A summary reads its columns as numbers and as rows flagged 1 only. *)
Lemma summarize_one_cells (self : FaultCodeOneReport.t) (d d' : DataFrame)
  (oc : option string) :
  index d' = index d ->
  (forall c,
      match getitem d c, getitem d' c with
      | Ok s, Ok s' => values s' = values s /\ eq_1 s' = eq_1 s
      | Raise e, Raise e' => e = e'
      | _, _ => False
      end) ->
  FaultCodeOneReport.summarize_fault_times self d' oc
  = FaultCodeOneReport.summarize_fault_times self d oc.
Proof.
  intros I C. unfold FaultCodeOneReport.summarize_fault_times.
  pose proof (C (default "fc1_flag" oc)) as Cf.
  destruct (getitem d (default "fc1_flag" oc)) as [flag|e],
    (getitem d' (default "fc1_flag" oc)) as [flag'|e'];
    try contradiction; [|cbn; congruence].
  destruct Cf as [Vf Ef]. cbn [rbind].
  pose proof (C (FaultCodeOneReport.duct_static_col self)) as Cs.
  destruct (getitem d (FaultCodeOneReport.duct_static_col self)) as [st|e],
    (getitem d' (FaultCodeOneReport.duct_static_col self)) as [st'|e'];
    try contradiction; [|cbn; congruence].
  destruct Cs as [Vs Es]. cbn [rbind].
  unfold mean, td_mul, Series_where. cbn [values].
  now rewrite I, Vf, Ef, Vs.
Qed.

Lemma summarize_two_cells (self : FaultCodeTwoReport.t) (d d' : DataFrame)
  (oc : option string) :
  index d' = index d ->
  (forall c,
      match getitem d c, getitem d' c with
      | Ok s, Ok s' => values s' = values s /\ eq_1 s' = eq_1 s
      | Raise e, Raise e' => e = e'
      | _, _ => False
      end) ->
  FaultCodeTwoReport.summarize_fault_times self d' oc
  = FaultCodeTwoReport.summarize_fault_times self d oc.
Proof.
  intros I C. unfold FaultCodeTwoReport.summarize_fault_times.
  pose proof (C (default "fc2_flag" oc)) as Cf.
  destruct (getitem d (default "fc2_flag" oc)) as [flag|e],
    (getitem d' (default "fc2_flag" oc)) as [flag'|e'];
    try contradiction; [|cbn; congruence].
  destruct Cf as [Vf Ef]. cbn [rbind].
  pose proof (C (FaultCodeTwoReport.mat_col self)) as Cm.
  destruct (getitem d (FaultCodeTwoReport.mat_col self)) as [mat|e],
    (getitem d' (FaultCodeTwoReport.mat_col self)) as [mat'|e'];
    try contradiction; [|cbn; congruence].
  destruct Cm as [Vm Em]. cbn [rbind].
  pose proof (C (FaultCodeTwoReport.oat_col self)) as Co.
  destruct (getitem d (FaultCodeTwoReport.oat_col self)) as [oat|e],
    (getitem d' (FaultCodeTwoReport.oat_col self)) as [oat'|e'];
    try contradiction; [|cbn; congruence].
  destruct Co as [Vo Eo]. cbn [rbind].
  pose proof (C (FaultCodeTwoReport.rat_col self)) as Cr.
  destruct (getitem d (FaultCodeTwoReport.rat_col self)) as [rat|e],
    (getitem d' (FaultCodeTwoReport.rat_col self)) as [rat'|e'];
    try contradiction; [|cbn; congruence].
  destruct Cr as [Vr Er]. cbn [rbind].
  unfold mean, td_mul, Series_where. cbn [values].
  now rewrite I, Vf, Ef, Vm, Vo, Vr.
Qed.

(** Replacing a boolean or integer column by its cast changes no cell as
    a number, in any column. *)
Lemma cast_keeps_cells (d : DataFrame) (k : string) (flag fi : Series) :
  getitem d k = Ok flag ->
  integer_dtype flag = true ->
  astype_int flag = Ok fi ->
  forall c,
    match getitem d c, getitem (setitem d k fi) c with
    | Ok s, Ok s' => values s' = values s /\ eq_1 s' = eq_1 s
    | Raise e, Raise e' => e = e'
    | _, _ => False
    end.
Proof.
  intros Hf D A c. destruct (string_dec c k) as [->|N].
  - rewrite Hf, getitem_setitem_same. now apply astype_int_cells.
  - rewrite getitem_setitem_other by exact N.
    destruct (getitem d c); [split|]; reflexivity.
Qed.

End Casts.

Section PlotAborts.

Arguments getitem : simpl never.
Arguments setitem : simpl never.
Arguments FaultCodeOneReport.create_fan_plot : simpl never.
Arguments FaultCodeTwoReport.create_plot : simpl never.

Ltac simp :=
  cbn [new_document add_heading add_picture add_paragraph
       add_paragraph_text set_style add_run append
       df document fst snd map_last app negb].

Ltac step := rewrite bind_eq; simp.

Ltac run := simp; repeat step.

(** A report whose time-series plot raises stops there: the exception is
    that of the plot, the dataframe is as the plot left it and the document
    under construction holds the title part and the heading of the plot. *)
Lemma create_report_one_plot_raise (self : FaultCodeOneReport.t)
  (path : string) (oc dc : option string) (now : string) (d d1 : DataFrame)
  (doc0 : Document) (e : exn) :
  FaultCodeOneReport.create_fan_plot self oc d = (Raise e, d1) ->
  FaultCodeOneReport.create_report self path oc dc now
    {| df := d; document := doc0 |}
  = (Raise e,
     {| df := d1;
        document := LayoutOne.title_part ++ [Heading "Dataset Plot" 2] |}).
Proof.
  intro H. unfold FaultCodeOneReport.create_report, on_df, read_df, ret.
  run. rewrite H. reflexivity.
Qed.

Lemma create_report_two_plot_raise (self : FaultCodeTwoReport.t)
  (path : string) (oc mc : option string) (now : string) (d d1 : DataFrame)
  (doc0 : Document) (e : exn) :
  FaultCodeTwoReport.create_plot self oc d = (Raise e, d1) ->
  FaultCodeTwoReport.create_report self path oc mc now
    {| df := d; document := doc0 |}
  = (Raise e,
     {| df := d1;
        document := LayoutTwo.title_part ++ [Heading "Dataset Plot" 2] |}).
Proof.
  intro H. unfold FaultCodeTwoReport.create_report, on_df, read_df, ret.
  run. rewrite H. reflexivity.
Qed.

Lemma getitem_absent (d : DataFrame) (k : string) :
  lookup k (columns d) = None -> getitem d k = Raise (KeyError k).
Proof. unfold getitem. now intros ->. Qed.

Lemma absent_getitem (d : DataFrame) (k : string) :
  absent d k = true -> getitem d k = Raise (KeyError k).
Proof.
  unfold absent. intro H. apply getitem_absent.
  now destruct (lookup k (columns d)).
Qed.

Lemma present_getitem (d : DataFrame) (k : string) :
  absent d k = false -> exists s, getitem d k = Ok s.
Proof.
  unfold absent, getitem. destruct (lookup k (columns d)) as [s|];
    [now exists s | discriminate].
Qed.

(** An assignment to a column the dataframe has makes no column absent and
    no column present. *)
Lemma absent_setitem (d : DataFrame) (k c : string) (v s : Series) :
  getitem d k = Ok s -> absent (setitem d k v) c = absent d c.
Proof.
  intro H. apply getitem_Ok_lookup in H. unfold absent, setitem.
  cbn [columns]. destruct (string_dec c k) as [->|N].
  - now rewrite lookup_assign_same, H.
  - now rewrite lookup_assign_other.
Qed.

Lemma first_absent_setitem (keys : list string) (d : DataFrame) (k : string)
  (v s : Series) :
  getitem d k = Ok s -> first_absent keys (setitem d k v) = first_absent keys d.
Proof.
  intro H. unfold first_absent.
  induction keys as [|c r IH]; [reflexivity|]. cbn [find].
  now rewrite (absent_setitem d k c v s H), IH.
Qed.

End PlotAborts.

Section AfterPlots.


End AfterPlots.

(** * The claims *)

(** ** Flagged elapsed hours *)




(** ** Percentages *)




(** ** Durations *)



(** ** The hour-of-day histogram *)

(** C6, as the code has it: [create_hist_plot] draws the histogram of the
    hour of the day (0 to 23) of every row whose flag is 1, with the ten
    bins [ax.hist] uses when the call names no number of bins; the counts of
    the bins add up to the number of flagged rows, and when no row is
    flagged the figure is returned all the same, with ten empty bins.  Both
    report classes. *)
Theorem hour_histogram_of_flagged_rows (d : DataFrame) (flag : Series) :
  size flag = List.length (index d) ->
  (forall t, 0 <= hour t <= 23)
  /\ (forall self oc dc,
         getitem d (default "fc1_flag" oc) = Ok flag ->
         exists fig ax d',
           FaultCodeOneReport.create_hist_plot self oc dc d = (Ok fig, d')
           /\ fig_axes fig = [ax]
           /\ bars ax
              = hist (map (fun t => inject_Z (hour t))
                        (select (index d) (eq_1 flag)))
           /\ List.length (bars ax) = 10%nat
           /\ zsum (bars ax) = Z.of_nat (count_true (eq_1 flag))
           /\ (count_true (eq_1 flag) = 0%nat -> bars ax = repeat 0 10))
  /\ (forall self oc mc,
         getitem d (default "fc2_flag" oc) = Ok flag ->
         exists fig ax d',
           FaultCodeTwoReport.create_hist_plot self oc mc d = (Ok fig, d')
           /\ fig_axes fig = [ax]
           /\ bars ax
              = hist (map (fun t => inject_Z (hour t))
                        (select (index d) (eq_1 flag)))
           /\ List.length (bars ax) = 10%nat
           /\ zsum (bars ax) = Z.of_nat (count_true (eq_1 flag))
           /\ (count_true (eq_1 flag) = 0%nat -> bars ax = repeat 0 10)).
Proof.
  intro L. split; [exact hour_range|].
  split; intros self oc dc Hf; do 3 eexists.
  - split; [exact (create_hist_plot_one self oc dc d flag Hf)|].
    split; [reflexivity|]. exact (hour_bars (index d) flag L).
  - split; [exact (create_hist_plot_two self oc dc d flag Hf)|].
    split; [reflexivity|]. exact (hour_bars (index d) flag L).
Qed.

(** Two rows, the second one flagged: one flagged hour in ten bins. *)
Lemma hour_histogram_of_flagged_rows_witness :
  size (SBool [false; true]) = List.length (index df_second_flagged)
  /\ exists fig ax d',
      FaultCodeOneReport.create_hist_plot fc1 None None df_second_flagged
      = (Ok fig, d')
      /\ fig_axes fig = [ax]
      /\ List.length (bars ax) = 10%nat
      /\ zsum (bars ax) = 1.
Proof.
  split; [reflexivity|].
  destruct (hour_histogram_of_flagged_rows df_second_flagged
              (SBool [false; true]) eq_refl) as (_ & H1 & _).
  destruct (H1 fc1 None None eq_refl)
    as (fig & ax & d' & Hr & Ha & _ & Hl & Hs & _).
  exists fig, ax, d'. repeat split; assumption.
Defined.

(** C6 as stated fails: the histogram has ten bins, not twenty-four. *)
Lemma hour_histogram_has_not_24_buckets :
  exists fig ax d',
    FaultCodeOneReport.create_hist_plot fc1 None None df_second_flagged
    = (Ok fig, d')
    /\ fig_axes fig = [ax]
    /\ bars ax = [0; 0; 0; 0; 0; 1; 0; 0; 0; 0]
    /\ List.length (bars ax) <> 24%nat.
Proof.
  do 3 eexists. split; [reflexivity|]. split; [reflexivity|].
  split; [reflexivity | discriminate].
Qed.

(** ** The paragraphs of the report *)



(** ** The suggestions *)



(** C10: in the report of fault code 1, when the standard deviation of the
    setpoint column is undefined (NaN, as it is for a column of at most one
    row), the comparison [std == 0] is false and the report carries "Duct
    pressure reset detected (Good)", not the no-reset sentence. *)
Theorem undefined_std_reads_as_reset :
  (forall self path oc dc now d doc0 doc h',
      FaultCodeOneReport.create_report self path oc dc now
        {| df := d; document := doc0 |} = (Ok doc, h') ->
      exists sp,
        getitem (df h') (FaultCodeOneReport.duct_static_setpoint_col self)
        = Ok sp
        /\ ((size sp <= 1)%nat -> isnan (nanvar (values sp)) = true)
        /\ (isnan (nanvar (values sp)) = true ->
            std_eq_0 sp = false
            /\ In (bullet [Str FaultCodeOneReport.reset_text]) doc
            /\ ~ In (bullet [Str FaultCodeOneReport.no_reset_text]) doc))
  /\ (forall self path oc dc now d doc0 flag fi c1 c2 c3,
         getitem d (default "fc1_flag" oc) = Ok flag ->
         astype_int flag = Ok fi ->
         getitem d (FaultCodeOneReport.duct_static_col self) = Ok c1 ->
         getitem d (FaultCodeOneReport.supply_vfd_speed_col self) = Ok c2 ->
         getitem d (FaultCodeOneReport.duct_static_setpoint_col self) = Ok c3 ->
         FaultCodeOneReport.duct_static_setpoint_col self
         <> default "fc1_flag" oc ->
         FaultCodeOneReport.duct_static_setpoint_col self
         <> "hour_of_the_day_fc1" ->
         (size c3 <= 1)%nat ->
         exists doc h',
           FaultCodeOneReport.create_report self path oc dc now
             {| df := d; document := doc0 |} = (Ok doc, h')
           /\ In (bullet [Str FaultCodeOneReport.reset_text]) doc
           /\ ~ In (bullet [Str FaultCodeOneReport.no_reset_text]) doc).
Proof.
  assert (A : forall fig s h fan st sp now,
             isnan (nanvar (values sp)) = true ->
             In (bullet [Str FaultCodeOneReport.reset_text])
                (LayoutOne.report fig s h fan st sp now)
             /\ ~ In (bullet [Str FaultCodeOneReport.no_reset_text])
                    (LayoutOne.report fig s h fan st sp now)).
  { intros fig s h fan st sp now E. apply std_nan_not_0 in E.
    rewrite !suggestion_bullets_one, E. split; [now right|].
    destruct (fgt (SummaryOne.percent_true s) (Fin 5)); intros [F|F];
      discriminate. }
  split.
  - intros self path oc dc now d doc0 doc h' R.
    destruct (create_report_one_returns _ _ _ _ _ _ _ _ _ R)
      as (fig & d1 & s & h & d2 & fan & st & sp & _ & _ & _ & _ & _ & Hsp
          & Hd & Hh).
    exists sp. subst doc h'. cbn [df]. split; [assumption|].
    split; [apply nanvar_short|]. intro E. split; [now apply std_nan_not_0|].
    now apply A.
  - intros self path oc dc now d doc0 flag fi c1 c2 c3 Hf Hc H1 H2 H3 N1 N2 L.
    destruct (create_report_one_total self path oc dc now d doc0 flag fi
                c1 c2 c3 Hf Hc H1 H2 H3)
      as (fig & s & h & fan & st & sp & _ & _ & _ & _ & Hsp & R).
    rewrite !getitem_setitem_other, H3 in Hsp by assumption.
    injection Hsp as <-.
    do 2 eexists. split; [exact R|]. apply A. now apply nanvar_short.
Qed.

(** The sample dataframe of one row. *)
Lemma undefined_std_reads_as_reset_witness :
  exists doc h',
    FaultCodeOneReport.create_report fc1 "fc1.docx" None None "now"
      {| df := df_single; document := [] |} = (Ok doc, h')
    /\ In (bullet [Str FaultCodeOneReport.reset_text]) doc
    /\ ~ In (bullet [Str FaultCodeOneReport.no_reset_text]) doc.
Proof.
  destruct undefined_std_reads_as_reset as (_ & H).
  refine (H fc1 "fc1.docx" None None "now" df_single [] (SInt [1]) (SInt [1])
            (SFloat [Fin 1]) (SFloat [Fin 80]) (SFloat [Fin 1])
            eq_refl eq_refl eq_refl eq_refl eq_refl _ _ _).
  - discriminate.
  - discriminate.
  - cbn. lia.
Defined.

(** ** The order of the sections *)

(** C7, as the code has it: a report that [create_report] returns is, in
    this order, the title with the description and the reference image, the
    time-series plot, the statistics, the histogram, the commentary
    paragraph when there is one, the descriptive statistics of the three
    sensor columns, the suggestions and the footer with the time; the
    statistics block holds five bullets (total days, total hours, flagged
    hours, percent flagged, percent not flagged), whatever their values,
    followed by one empty paragraph that is not a bullet.  Both report
    classes. *)
Theorem report_sections_in_order :
  (forall self path oc dc now d doc0 doc h',
      FaultCodeOneReport.create_report self path oc dc now
        {| df := d; document := doc0 |} = (Ok doc, h') ->
      exists fig s h fan st sp,
        doc = LayoutOne.title_part ++ LayoutOne.plot_part fig
              ++ LayoutOne.statistics_part s ++ LayoutOne.histogram_part h
              ++ LayoutOne.commentary_part s
              ++ LayoutOne.describe_part fan st sp
              ++ LayoutOne.suggestions_part s sp ++ footer now
        /\ block_of "Dataset Statistics" doc
           = tl (LayoutOne.statistics_part s)
        /\ map is_bullet (block_of "Dataset Statistics" doc)
           = [true; true; true; true; true; false])
  /\ (forall self path oc mc now d doc0 doc h',
         FaultCodeTwoReport.create_report self path oc mc now
           {| df := d; document := doc0 |} = (Ok doc, h') ->
         exists fig s h mat rat oat,
           doc = LayoutTwo.title_part ++ LayoutTwo.plot_part fig
                 ++ LayoutTwo.statistics_part s ++ LayoutTwo.histogram_part h
                 ++ LayoutTwo.commentary_part s
                 ++ LayoutTwo.describe_part mat rat oat
                 ++ LayoutTwo.suggestions_part s ++ footer now
           /\ block_of "Dataset Statistics" doc
              = tl (LayoutTwo.statistics_part s)
           /\ map is_bullet (block_of "Dataset Statistics" doc)
              = [true; true; true; true; true; false]).
Proof.
  split.
  - intros self path oc dc now d doc0 doc h' R.
    destruct (create_report_one_returns _ _ _ _ _ _ _ _ _ R)
      as (fig & d1 & s & h & d2 & fan & st & sp & _ & _ & _ & _ & _ & _
          & Hd & _).
    exists fig, s, h, fan, st, sp. subst doc.
    split; [reflexivity|]. split; reflexivity.
  - intros self path oc mc now d doc0 doc h' R.
    destruct (create_report_two_returns _ _ _ _ _ _ _ _ _ R)
      as (fig & d1 & s & h & d2 & mat & rat & oat & _ & _ & _ & _ & _ & _
          & Hd & _).
    exists fig, s, h, mat, rat, oat. subst doc.
    split; [reflexivity|]. split; reflexivity.
Qed.

(** The sample report of fault code 1 on a dataframe without rows: the
    five bullets are there. *)
Lemma report_sections_in_order_witness :
  exists doc h',
    FaultCodeOneReport.create_report fc1 "fc1.docx" None None "now"
      {| df := df_empty; document := [] |} = (Ok doc, h')
    /\ map is_bullet (block_of "Dataset Statistics" doc)
       = [true; true; true; true; true; false].
Proof.
  destruct report_sections_in_order as (H1 & _).
  destruct (create_report_one_total fc1 "fc1.docx" None None "now"
              df_empty [] (SInt []) (SInt [])
              (SFloat []) (SFloat []) (SFloat [])
              eq_refl eq_refl eq_refl eq_refl eq_refl)
    as (fig & s & h & fan & st & sp & _ & _ & _ & _ & _ & R).
  destruct (H1 _ _ _ _ _ _ _ _ _ R) as (_ & _ & _ & _ & _ & _ & _ & _ & Hb).
  do 2 eexists. split; [exact R | exact Hb].
Defined.

(** C7 as stated fails: the statistics block of a report holds five
    bullets, not six; its sixth paragraph is empty and is not a bullet. *)
Lemma statistics_block_has_not_six_bullets :
  exists doc h',
    FaultCodeOneReport.create_report fc1 "fc1.docx" None None "now"
      {| df := df_second_flagged; document := [] |} = (Ok doc, h')
    /\ List.length (block_of "Dataset Statistics" doc) = 6%nat
    /\ nth 5 (block_of "Dataset Statistics" doc) spacer = Paragraph Normal []
    /\ List.length (filter is_bullet (block_of "Dataset Statistics" doc))
       = 5%nat
    /\ List.length (filter is_bullet (block_of "Dataset Statistics" doc))
       <> 6%nat.
Proof.
  do 2 eexists. split; [vm_compute; reflexivity|].
  repeat split; try reflexivity. discriminate.
Qed.

(** ** Missing columns and the caller's dataframe *)





(** C9, as the code has it: whatever the outcome of [create_report] of
    fault code 1, the caller's dataframe keeps its index and every column
    other than the flag column and the hour-of-day column; the flag column
    is left as it was or replaced by its cast to integers (a boolean column
    becomes a column of 0 and 1, an integer column stays as it is). *)
Theorem report_leaves_other_columns
  (self : FaultCodeOneReport.t) (path : string) (oc dc : option string)
  (now : string) (d : DataFrame) (doc0 : Document) (r : result Document)
  (h' : heap) :
  FaultCodeOneReport.create_report self path oc dc now
    {| df := d; document := doc0 |} = (r, h') ->
  same_except [default "fc1_flag" oc; "hour_of_the_day_fc1"] d (df h')
  /\ (default "fc1_flag" oc <> "hour_of_the_day_fc1" ->
      lookup (default "fc1_flag" oc) (columns (df h'))
      = lookup (default "fc1_flag" oc) (columns d)
      \/ exists flag fi,
          lookup (default "fc1_flag" oc) (columns d) = Some flag
          /\ astype_int flag = Ok fi
          /\ lookup (default "fc1_flag" oc) (columns (df h')) = Some fi
          /\ (forall l, flag = SBool l -> fi = SInt (map Z.b2z l))
          /\ (forall l, flag = SInt l -> fi = flag)).
Proof.
  intro R.
  destruct (create_report_one_df _ _ _ _ _ _ _ _ _ R)
    as (r1 & d1 & Hp & Hd).
  set (keys := [default "fc1_flag" oc; "hour_of_the_day_fc1"]).
  assert (K1 : In (default "fc1_flag" oc) keys) by now left.
  assert (K2 : In "hour_of_the_day_fc1" keys) by (right; now left).
  assert (F1 : same_except keys d d1
               /\ (lookup (default "fc1_flag" oc) (columns d1)
                   = lookup (default "fc1_flag" oc) (columns d)
                   \/ exists flag fi,
                       lookup (default "fc1_flag" oc) (columns d) = Some flag
                       /\ astype_int flag = Ok fi
                       /\ lookup (default "fc1_flag" oc) (columns d1) = Some fi
                       /\ (forall l, flag = SBool l -> fi = SInt (map Z.b2z l))
                       /\ (forall l, flag = SInt l -> fi = flag))).
  { destruct (create_fan_plot_frame _ _ _ _ _ Hp)
      as [->|(flag & fi & Hf & Hc & ->)].
    - split; [apply same_except_refl | now left].
    - split; [apply same_except_setitem; auto using same_except_refl|].
      right. exists flag, fi. apply getitem_Ok_lookup in Hf.
      destruct (astype_int_values _ _ Hc) as [B I].
      repeat split; try assumption.
      cbn [setitem columns]. apply lookup_assign_same. }
  destruct F1 as [S1 L1].
  destruct Hd as [E|[r2 Hh]].
  - rewrite E. split; [exact S1 | intros _; exact L1].
  - destruct (create_hist_plot_frame _ _ _ _ _ _ Hh) as [E|[v E]];
      rewrite E.
    + split; [exact S1 | intros _; exact L1].
    + split; [now apply same_except_setitem|]. intro N.
      cbn [setitem columns]. rewrite lookup_assign_other by exact N.
      exact L1.
Qed.

(** The sample report on two rows. *)
Lemma report_leaves_other_columns_witness :
  exists r h',
    FaultCodeOneReport.create_report fc1 "fc1.docx" None None "now"
      {| df := df_second_flagged; document := [] |} = (r, h')
    /\ same_except ["fc1_flag"; "hour_of_the_day_fc1"] df_second_flagged
         (df h').
Proof.
  destruct (FaultCodeOneReport.create_report fc1 "fc1.docx" None None "now"
              {| df := df_second_flagged; document := [] |})
    as [r h'] eqn:R.
  exists r, h'. split; [reflexivity|].
  exact (proj1 (report_leaves_other_columns _ _ _ _ _ _ _ _ _ R)).
Defined.

(** C9 as stated fails: a boolean flag column comes back as a column of
    integers. *)
Lemma flag_column_representation_changes :
  exists r h',
    FaultCodeOneReport.create_report fc1 "fc1.docx" None None "now"
      {| df := df_second_flagged; document := [] |} = (r, h')
    /\ lookup "fc1_flag" (columns df_second_flagged)
       = Some (SBool [false; true])
    /\ lookup "fc1_flag" (columns (df h')) = Some (SInt [0; 1])
    /\ lookup "fc1_flag" (columns (df h'))
       <> lookup "fc1_flag" (columns df_second_flagged).
Proof.
  do 2 eexists. split; [vm_compute; reflexivity|].
  cbn [df]. split; [reflexivity|]. split; [reflexivity | discriminate].
Qed.

(** * Further properties of the summaries *)

Section Spans.








End Spans.





Section Means.

Local Open Scope Q_scope.

















End Means.







(** * Further properties of the plots and of the reports *)

(** X6: the statistics of a report are those of the caller's dataframe:
    when the flag column has a boolean or integer dtype,
    [summarize_fault_times] gives the same result on the dataframe that the
    time-series plot has left, with the flag column cast to integers, as on
    the dataframe the caller passed.  Both report classes. *)
Theorem summary_unchanged_by_flag_cast (d : DataFrame) (flag : Series) :
  integer_dtype flag = true ->
  (forall self oc fig d1,
      getitem d (default "fc1_flag" oc) = Ok flag ->
      FaultCodeOneReport.create_fan_plot self oc d = (Ok fig, d1) ->
      FaultCodeOneReport.summarize_fault_times self d1 oc
      = FaultCodeOneReport.summarize_fault_times self d oc)
  /\ (forall self oc fig d1,
         getitem d (default "fc2_flag" oc) = Ok flag ->
         FaultCodeTwoReport.create_plot self oc d = (Ok fig, d1) ->
         FaultCodeTwoReport.summarize_fault_times self d1 oc
         = FaultCodeTwoReport.summarize_fault_times self d oc).
Proof.
  intro D. split; intros self oc fig d1 Hf R.
  - destruct (create_fan_plot_returns _ _ _ _ _ R)
      as (flag' & fi & st & fan & Hf' & Hc & -> & _ & _).
    rewrite Hf in Hf'. injection Hf' as <-.
    apply summarize_one_cells; [reflexivity|].
    now apply (cast_keeps_cells d _ flag fi).
  - destruct (create_plot_returns _ _ _ _ _ R)
      as (flag' & fi & mat & rat & oat & Hf' & Hc & -> & _ & _ & _).
    rewrite Hf in Hf'. injection Hf' as <-.
    apply summarize_two_cells; [reflexivity|].
    now apply (cast_keeps_cells d _ flag fi).
Qed.

Lemma summary_unchanged_by_flag_cast_witness :
  exists fig d1,
    FaultCodeOneReport.create_fan_plot fc1 None df_second_flagged
    = (Ok fig, d1)
    /\ lookup "fc1_flag" (columns d1) = Some (SInt [0; 1])
    /\ FaultCodeOneReport.summarize_fault_times fc1 d1 None
       = FaultCodeOneReport.summarize_fault_times fc1 df_second_flagged None.
Proof.
  destruct (summary_unchanged_by_flag_cast df_second_flagged
              (SBool [false; true]) eq_refl) as [H _].
  do 2 eexists. split; [reflexivity|]. split; [reflexivity|].
  eapply (H fc1 None); reflexivity.
Defined.

(** X7: the time-series plots can be drawn again: a second call on the
    dataframe that a first call has left returns the same figure and leaves
    the dataframe as it is.  Both report classes. *)
Theorem plot_again_changes_nothing :
  (forall self oc d fig d1,
      FaultCodeOneReport.create_fan_plot self oc d = (Ok fig, d1) ->
      FaultCodeOneReport.create_fan_plot self oc d1 = (Ok fig, d1))
  /\ (forall self oc d fig d1,
         FaultCodeTwoReport.create_plot self oc d = (Ok fig, d1) ->
         FaultCodeTwoReport.create_plot self oc d1 = (Ok fig, d1)).
Proof.
  split; intros self oc d fig d1 R.
  - destruct (create_fan_plot_returns _ _ _ _ _ R)
      as (flag & fi & st & fan & Hf & Hc & E & Hs & Hv).
    rewrite (create_fan_plot_run self oc d flag fi st fan Hf Hc) in R;
      try (rewrite <- E; assumption).
    injection R as <- _. subst d1.
    pose proof (create_fan_plot_run self oc
                  (setitem d (default "fc1_flag" oc) fi) fi fi st fan
                  (getitem_setitem_same _ _ _) (astype_int_again _ _ Hc)) as P.
    cbv zeta in P. rewrite setitem_setitem in P. exact (P Hs Hv).
  - destruct (create_plot_returns _ _ _ _ _ R)
      as (flag & fi & mat & rat & oat & Hf & Hc & E & Hm & Hr & Ho).
    rewrite (create_plot_run self oc d flag fi mat rat oat Hf Hc) in R;
      try (rewrite <- E; assumption).
    injection R as <- _. subst d1.
    pose proof (create_plot_run self oc
                  (setitem d (default "fc2_flag" oc) fi) fi fi mat rat oat
                  (getitem_setitem_same _ _ _) (astype_int_again _ _ Hc)) as P.
    cbv zeta in P. rewrite setitem_setitem in P. exact (P Hm Hr Ho).
Qed.

Lemma plot_again_changes_nothing_witness :
  exists fig d1,
    FaultCodeOneReport.create_fan_plot fc1 None df_second_flagged
    = (Ok fig, d1)
    /\ FaultCodeOneReport.create_fan_plot fc1 None d1 = (Ok fig, d1).
Proof.
  destruct plot_again_changes_nothing as [H _].
  do 2 eexists. split; [reflexivity|]. apply (H fc1 None df_second_flagged).
  reflexivity.
Defined.

(** * Reports that stop in the time-series plot *)

(** X8: without the flag column both reports stop in the time-series plot
    on the KeyError of that column: the caller's dataframe is as it was,
    and the document under construction, which is lost, holds the title
    part and the heading of the plot only. *)
Theorem missing_flag_column_outcome (d : DataFrame) :
  (forall self path oc dc now doc0,
      lookup (default "fc1_flag" oc) (columns d) = None ->
      FaultCodeOneReport.create_report self path oc dc now
        {| df := d; document := doc0 |}
      = (Raise (KeyError (default "fc1_flag" oc)),
         {| df := d;
            document := LayoutOne.title_part
                        ++ [Heading "Dataset Plot" 2] |}))
  /\ (forall self path oc mc now doc0,
         lookup (default "fc2_flag" oc) (columns d) = None ->
         FaultCodeTwoReport.create_report self path oc mc now
           {| df := d; document := doc0 |}
         = (Raise (KeyError (default "fc2_flag" oc)),
            {| df := d;
               document := LayoutTwo.title_part
                           ++ [Heading "Dataset Plot" 2] |})).
Proof.
  split.
  - intros self path oc dc now doc0 A.
    apply create_report_one_plot_raise.
    pose proof (create_fan_plot_cases self oc d) as C. cbv zeta in C.
    now rewrite (getitem_absent _ _ A) in C.
  - intros self path oc mc now doc0 A.
    apply create_report_two_plot_raise.
    pose proof (create_plot_cases self oc d) as C. cbv zeta in C.
    now rewrite (getitem_absent _ _ A) in C.
Qed.

(** A dataframe of sensor columns that was never given a flag column. *)
Lemma missing_flag_column_outcome_witness :
  FaultCodeTwoReport.create_report fc2 "fc2.docx" (Some "flag") None "now"
    {| df := df_no_setpoint; document := [] |}
  = (Raise (KeyError "flag"),
     {| df := df_no_setpoint;
        document := LayoutTwo.title_part ++ [Heading "Dataset Plot" 2] |}).
Proof.
  exact (proj2 (missing_flag_column_outcome df_no_setpoint)
           fc2 "fc2.docx" (Some "flag") None "now" [] eq_refl).
Defined.

(** X9: a flag column of floats with a missing value cannot be cast to
    integers: both reports stop in the time-series plot on
    IntCastingNaNError, the caller's dataframe is as it was, and the
    document under construction holds the title part and the heading of the
    plot only. *)
Theorem flag_with_missing_value_outcome (d : DataFrame) (l : list float) :
  all_finite l = false ->
  (forall self path oc dc now doc0,
      getitem d (default "fc1_flag" oc) = Ok (SFloat l) ->
      FaultCodeOneReport.create_fan_plot self oc d
      = (Raise IntCastingNaNError, d)
      /\ FaultCodeOneReport.create_report self path oc dc now
           {| df := d; document := doc0 |}
         = (Raise IntCastingNaNError,
            {| df := d;
               document := LayoutOne.title_part
                           ++ [Heading "Dataset Plot" 2] |}))
  /\ (forall self path oc mc now doc0,
         getitem d (default "fc2_flag" oc) = Ok (SFloat l) ->
         FaultCodeTwoReport.create_plot self oc d
         = (Raise IntCastingNaNError, d)
         /\ FaultCodeTwoReport.create_report self path oc mc now
              {| df := d; document := doc0 |}
            = (Raise IntCastingNaNError,
               {| df := d;
                  document := LayoutTwo.title_part
                              ++ [Heading "Dataset Plot" 2] |})).
Proof.
  intro N. split.
  - intros self path oc dc now doc0 Hf.
    assert (P : FaultCodeOneReport.create_fan_plot self oc d
                = (Raise IntCastingNaNError, d)).
    { pose proof (create_fan_plot_cases self oc d) as C. cbv zeta in C.
      rewrite Hf in C. cbn [astype_int] in C. now rewrite N in C. }
    split; [exact P | now apply create_report_one_plot_raise].
  - intros self path oc mc now doc0 Hf.
    assert (P : FaultCodeTwoReport.create_plot self oc d
                = (Raise IntCastingNaNError, d)).
    { pose proof (create_plot_cases self oc d) as C. cbv zeta in C.
      rewrite Hf in C. cbn [astype_int] in C. now rewrite N in C. }
    split; [exact P | now apply create_report_two_plot_raise].
Qed.

(** The sample dataframe with a missing flag. *)
Lemma flag_with_missing_value_outcome_witness :
  FaultCodeOneReport.create_report fc1 "fc1.docx" None None "now"
    {| df := df_flag_missing_value; document := [] |}
  = (Raise IntCastingNaNError,
     {| df := df_flag_missing_value;
        document := LayoutOne.title_part ++ [Heading "Dataset Plot" 2] |}).
Proof.
  destruct (flag_with_missing_value_outcome df_flag_missing_value
              [NaN; Fin 1] eq_refl) as [H _].
  exact (proj2 (H fc1 "fc1.docx" None None "now" [] eq_refl)).
Defined.

(** X10: nothing is rolled back.  When the flag column can be cast and a
    sensor column of the time-series plot is absent, both reports stop on
    the KeyError of the first absent column, in the order the plot reads
    them, and the caller's dataframe is left with its flag column replaced
    by the cast to integers. *)
Theorem missing_sensor_keeps_flag_cast (d : DataFrame) (flag fi : Series)
  (c : string) :
  astype_int flag = Ok fi ->
  (forall self path oc dc now doc0,
      getitem d (default "fc1_flag" oc) = Ok flag ->
      first_absent [FaultCodeOneReport.duct_static_col self;
                    FaultCodeOneReport.supply_vfd_speed_col self] d
      = Some c ->
      FaultCodeOneReport.create_report self path oc dc now
        {| df := d; document := doc0 |}
      = (Raise (KeyError c),
         {| df := setitem d (default "fc1_flag" oc) fi;
            document := LayoutOne.title_part
                        ++ [Heading "Dataset Plot" 2] |}))
  /\ (forall self path oc mc now doc0,
         getitem d (default "fc2_flag" oc) = Ok flag ->
         first_absent [FaultCodeTwoReport.mat_col self;
                       FaultCodeTwoReport.rat_col self;
                       FaultCodeTwoReport.oat_col self] d
         = Some c ->
         FaultCodeTwoReport.create_report self path oc mc now
           {| df := d; document := doc0 |}
         = (Raise (KeyError c),
            {| df := setitem d (default "fc2_flag" oc) fi;
               document := LayoutTwo.title_part
                           ++ [Heading "Dataset Plot" 2] |})).
Proof.
  intro A. split.
  - intros self path oc dc now doc0 Hf F.
    apply create_report_one_plot_raise.
    rewrite <- (first_absent_setitem _ d (default "fc1_flag" oc) fi flag Hf)
      in F.
    pose proof (create_fan_plot_cases self oc d) as C. cbv zeta in C.
    rewrite Hf, A in C. unfold first_absent in F. cbn [find] in F.
    destruct (absent _ (FaultCodeOneReport.duct_static_col self)) eqn:E1.
    { injection F as <-. now rewrite (absent_getitem _ _ E1) in C. }
    destruct (present_getitem _ _ E1) as [st Hst]. rewrite Hst in C.
    destruct (absent _ (FaultCodeOneReport.supply_vfd_speed_col self))
      eqn:E2; [|discriminate].
    injection F as <-. now rewrite (absent_getitem _ _ E2) in C.
  - intros self path oc mc now doc0 Hf F.
    apply create_report_two_plot_raise.
    rewrite <- (first_absent_setitem _ d (default "fc2_flag" oc) fi flag Hf)
      in F.
    pose proof (create_plot_cases self oc d) as C. cbv zeta in C.
    rewrite Hf, A in C. unfold first_absent in F. cbn [find] in F.
    destruct (absent _ (FaultCodeTwoReport.mat_col self)) eqn:E1.
    { injection F as <-. now rewrite (absent_getitem _ _ E1) in C. }
    destruct (present_getitem _ _ E1) as [mat Hmat]. rewrite Hmat in C.
    destruct (absent _ (FaultCodeTwoReport.rat_col self)) eqn:E2.
    { injection F as <-. now rewrite (absent_getitem _ _ E2) in C. }
    destruct (present_getitem _ _ E2) as [rat Hrat]. rewrite Hrat in C.
    destruct (absent _ (FaultCodeTwoReport.oat_col self)) eqn:E3;
      [|discriminate].
    injection F as <-. now rewrite (absent_getitem _ _ E3) in C.
Qed.

(** A boolean flag column and no mixed air temperature column: the flag
    column comes back as integers from the report that failed. *)
Lemma missing_sensor_keeps_flag_cast_witness :
  exists h',
    FaultCodeTwoReport.create_report fc2 "fc2.docx" None None "now"
      {| df := df_no_mat; document := [] |}
    = (Raise (KeyError "mat"), h')
    /\ lookup "fc2_flag" (columns (df h')) = Some (SInt [0; 1]).
Proof.
  destruct (missing_sensor_keeps_flag_cast df_no_mat (SBool [false; true])
              (SInt [0; 1]) "mat" eq_refl) as [_ H].
  eexists. split.
  - exact (H fc2 "fc2.docx" None None "now" [] eq_refl eq_refl).
  - reflexivity.
Defined.

(** * Running a report again, and the dataframe of fault code 2 *)

Section Again.

Lemma assign_same (k : string) (v : Series) (cols : list (string * Series)) :
  lookup k cols = Some v -> assign k v cols = cols.
Proof.
  induction cols as [|[j w] r IH]; cbn; [discriminate|].
  destruct (String.eqb j k) eqn:E.
  - now intros [= ->].
  - intro H. now rewrite (IH H).
Qed.

(** Assigning to a column the series it holds changes nothing. *)
Lemma setitem_same (d : DataFrame) (k : string) (v : Series) :
  getitem d k = Ok v -> setitem d k v = d.
Proof.
  intro H. apply getitem_Ok_lookup in H. destruct d as [idx cols].
  unfold setitem. cbn [index columns] in *. now rewrite assign_same.
Qed.

(** The summaries read the index and their own columns only. *)
Lemma summarize_one_ext (self : FaultCodeOneReport.t) (d d' : DataFrame)
  (oc : option string) :
  index d' = index d ->
  getitem d' (default "fc1_flag" oc) = getitem d (default "fc1_flag" oc) ->
  getitem d' (FaultCodeOneReport.duct_static_col self)
  = getitem d (FaultCodeOneReport.duct_static_col self) ->
  FaultCodeOneReport.summarize_fault_times self d' oc
  = FaultCodeOneReport.summarize_fault_times self d oc.
Proof.
  intros I F S. unfold FaultCodeOneReport.summarize_fault_times.
  now rewrite I, F, S.
Qed.

Lemma summarize_two_ext (self : FaultCodeTwoReport.t) (d d' : DataFrame)
  (oc : option string) :
  index d' = index d ->
  getitem d' (default "fc2_flag" oc) = getitem d (default "fc2_flag" oc) ->
  getitem d' (FaultCodeTwoReport.mat_col self)
  = getitem d (FaultCodeTwoReport.mat_col self) ->
  getitem d' (FaultCodeTwoReport.oat_col self)
  = getitem d (FaultCodeTwoReport.oat_col self) ->
  getitem d' (FaultCodeTwoReport.rat_col self)
  = getitem d (FaultCodeTwoReport.rat_col self) ->
  FaultCodeTwoReport.summarize_fault_times self d' oc
  = FaultCodeTwoReport.summarize_fault_times self d oc.
Proof.
  intros I F M O R. unfold FaultCodeTwoReport.summarize_fault_times.
  now rewrite I, F, M, O, R.
Qed.

Lemma create_hist_plot_two_raise (self : FaultCodeTwoReport.t)
  (oc mc : option string) (d : DataFrame) (e : exn) :
  getitem d (default "fc2_flag" oc) = Raise e ->
  FaultCodeTwoReport.create_hist_plot self oc mc d = (Raise e, d).
Proof.
  intro H. unfold FaultCodeTwoReport.create_hist_plot, bind, df_index, df_get.
  now rewrite H.
Qed.

(** A histogram that was drawn: the flag column it read. *)
Lemma create_hist_plot_one_returns (self : FaultCodeOneReport.t)
  (oc dc : option string) (d d2 : DataFrame) (h : Figure) :
  FaultCodeOneReport.create_hist_plot self oc dc d = (Ok h, d2) ->
  exists flag,
    getitem d (default "fc1_flag" oc) = Ok flag
    /\ d2 = setitem d "hour_of_the_day_fc1"
              (hour_where (index d) (eq_1 flag)).
Proof.
  intro R. destruct (getitem d (default "fc1_flag" oc)) as [flag|e] eqn:G.
  - rewrite (create_hist_plot_one self oc dc d flag G) in R.
    exists flag. split; [reflexivity|]. now injection R as _ <-.
  - rewrite (create_hist_plot_one_raise self oc dc d e G) in R.
    discriminate.
Qed.

Lemma create_hist_plot_two_returns (self : FaultCodeTwoReport.t)
  (oc mc : option string) (d d2 : DataFrame) (h : Figure) :
  FaultCodeTwoReport.create_hist_plot self oc mc d = (Ok h, d2) ->
  exists flag,
    getitem d (default "fc2_flag" oc) = Ok flag
    /\ d2 = setitem d "hour_of_the_day_fc2"
              (hour_where (index d) (eq_1 flag)).
Proof.
  intro R. destruct (getitem d (default "fc2_flag" oc)) as [flag|e] eqn:G.
  - rewrite (create_hist_plot_two self oc mc d flag G) in R.
    exists flag. split; [reflexivity|]. now injection R as _ <-.
  - rewrite (create_hist_plot_two_raise self oc mc d e G) in R.
    discriminate.
Qed.

(** A second histogram on the dataframe that the first one left. *)
Lemma create_hist_plot_one_again (self : FaultCodeOneReport.t)
  (oc dc : option string) (d d2 : DataFrame) (h : Figure) :
  default "fc1_flag" oc <> "hour_of_the_day_fc1" ->
  FaultCodeOneReport.create_hist_plot self oc dc d = (Ok h, d2) ->
  FaultCodeOneReport.create_hist_plot self oc dc d2 = (Ok h, d2).
Proof.
  intros N R.
  destruct (create_hist_plot_one_returns _ _ _ _ _ _ R) as (flag & G & ->).
  rewrite (create_hist_plot_one self oc dc d flag G) in R.
  injection R as <-.
  rewrite (create_hist_plot_one self oc dc _ flag)
    by now rewrite getitem_setitem_other.
  rewrite index_setitem. now rewrite setitem_setitem.
Qed.

Lemma create_hist_plot_two_again (self : FaultCodeTwoReport.t)
  (oc mc : option string) (d d2 : DataFrame) (h : Figure) :
  default "fc2_flag" oc <> "hour_of_the_day_fc2" ->
  FaultCodeTwoReport.create_hist_plot self oc mc d = (Ok h, d2) ->
  FaultCodeTwoReport.create_hist_plot self oc mc d2 = (Ok h, d2).
Proof.
  intros N R.
  destruct (create_hist_plot_two_returns _ _ _ _ _ _ R) as (flag & G & ->).
  rewrite (create_hist_plot_two self oc mc d flag G) in R.
  injection R as <-.
  rewrite (create_hist_plot_two self oc mc _ flag)
    by now rewrite getitem_setitem_other.
  rewrite index_setitem. now rewrite setitem_setitem.
Qed.

(** A second time-series plot on the dataframe of a returned report. *)
Lemma create_fan_plot_after_hist (self : FaultCodeOneReport.t)
  (oc : option string) (d d1 : DataFrame) (fig : Figure) (v : Series) :
  default "fc1_flag" oc <> "hour_of_the_day_fc1" ->
  FaultCodeOneReport.duct_static_col self <> "hour_of_the_day_fc1" ->
  FaultCodeOneReport.supply_vfd_speed_col self <> "hour_of_the_day_fc1" ->
  FaultCodeOneReport.create_fan_plot self oc d = (Ok fig, d1) ->
  FaultCodeOneReport.create_fan_plot self oc
    (setitem d1 "hour_of_the_day_fc1" v)
  = (Ok fig, setitem d1 "hour_of_the_day_fc1" v).
Proof.
  intros NK NS NF R.
  destruct (create_fan_plot_returns _ _ _ _ _ R)
    as (flag & fi & st & fan & Hf & Hc & E & Hs & Hv).
  rewrite (create_fan_plot_run self oc d flag fi st fan Hf Hc) in R;
    try (rewrite <- E; assumption).
  injection R as <- _.
  set (d2 := setitem d1 "hour_of_the_day_fc1" v).
  assert (G : getitem d2 (default "fc1_flag" oc) = Ok fi).
  { unfold d2. rewrite getitem_setitem_other by exact NK.
    rewrite E. apply getitem_setitem_same. }
  pose proof (create_fan_plot_run self oc d2 fi fi st fan G
                (astype_int_again _ _ Hc)) as P.
  cbv zeta in P. rewrite (setitem_same d2 _ fi G) in P.
  rewrite P.
  - unfold d2. rewrite index_setitem, E, index_setitem. reflexivity.
  - unfold d2. now rewrite getitem_setitem_other.
  - unfold d2. now rewrite getitem_setitem_other.
Qed.

Lemma create_plot_after_hist (self : FaultCodeTwoReport.t)
  (oc : option string) (d d1 : DataFrame) (fig : Figure) (v : Series) :
  default "fc2_flag" oc <> "hour_of_the_day_fc2" ->
  FaultCodeTwoReport.mat_col self <> "hour_of_the_day_fc2" ->
  FaultCodeTwoReport.rat_col self <> "hour_of_the_day_fc2" ->
  FaultCodeTwoReport.oat_col self <> "hour_of_the_day_fc2" ->
  FaultCodeTwoReport.create_plot self oc d = (Ok fig, d1) ->
  FaultCodeTwoReport.create_plot self oc
    (setitem d1 "hour_of_the_day_fc2" v)
  = (Ok fig, setitem d1 "hour_of_the_day_fc2" v).
Proof.
  intros NK NM NR NO R.
  destruct (create_plot_returns _ _ _ _ _ R)
    as (flag & fi & mat & rat & oat & Hf & Hc & E & Hm & Hr & Ho).
  rewrite (create_plot_run self oc d flag fi mat rat oat Hf Hc) in R;
    try (rewrite <- E; assumption).
  injection R as <- _.
  set (d2 := setitem d1 "hour_of_the_day_fc2" v).
  assert (G : getitem d2 (default "fc2_flag" oc) = Ok fi).
  { unfold d2. rewrite getitem_setitem_other by exact NK.
    rewrite E. apply getitem_setitem_same. }
  pose proof (create_plot_run self oc d2 fi fi mat rat oat G
                (astype_int_again _ _ Hc)) as P.
  cbv zeta in P. rewrite (setitem_same d2 _ fi G) in P.
  rewrite P.
  - unfold d2. rewrite index_setitem, E, index_setitem. reflexivity.
  - unfold d2. now rewrite getitem_setitem_other.
  - unfold d2. now rewrite getitem_setitem_other.
  - unfold d2. now rewrite getitem_setitem_other.
Qed.

End Again.

(** X11: a report can be generated again.  When the flag column and the
    columns of the time-series plot do not bear the name of the hour-of-day
    column, [create_report] run on the dataframe that a returned report has
    left returns the same document and leaves the dataframe as it found it,
    whatever document was under construction before.  Both report
    classes. *)
Theorem report_again_same_document :
  (forall self path oc dc now d doc0 doc1 doc h',
      default "fc1_flag" oc <> "hour_of_the_day_fc1" ->
      FaultCodeOneReport.duct_static_col self <> "hour_of_the_day_fc1" ->
      FaultCodeOneReport.supply_vfd_speed_col self
      <> "hour_of_the_day_fc1" ->
      FaultCodeOneReport.create_report self path oc dc now
        {| df := d; document := doc0 |} = (Ok doc, h') ->
      FaultCodeOneReport.create_report self path oc dc now
        {| df := df h'; document := doc1 |} = (Ok doc, h'))
  /\ (forall self path oc mc now d doc0 doc1 doc h',
         default "fc2_flag" oc <> "hour_of_the_day_fc2" ->
         FaultCodeTwoReport.mat_col self <> "hour_of_the_day_fc2" ->
         FaultCodeTwoReport.rat_col self <> "hour_of_the_day_fc2" ->
         FaultCodeTwoReport.oat_col self <> "hour_of_the_day_fc2" ->
         FaultCodeTwoReport.create_report self path oc mc now
           {| df := d; document := doc0 |} = (Ok doc, h') ->
         FaultCodeTwoReport.create_report self path oc mc now
           {| df := df h'; document := doc1 |} = (Ok doc, h')).
Proof.
  split.
  - intros self path oc dc now d doc0 doc1 doc h' NK NS NF R.
    destruct (create_report_one_returns _ _ _ _ _ _ _ _ _ R)
      as (fig & d1 & s & h & d2 & fan & st & sp & Hp & Hs & Hh & Hfan & Hst
          & Hsp & -> & ->).
    cbn [df].
    destruct (create_hist_plot_one_returns _ _ _ _ _ _ Hh) as (fi & G & E).
    pose proof (create_report_one_cases self path oc dc now d2 doc1) as C.
    cbv zeta in C.
    assert (P2 : FaultCodeOneReport.create_fan_plot self oc d2 = (Ok fig, d2))
      by (rewrite E; now apply (create_fan_plot_after_hist self oc d)).
    assert (S2 : FaultCodeOneReport.summarize_fault_times self d2 oc = Ok s).
    { rewrite <- Hs. apply summarize_one_ext; rewrite E;
        [reflexivity | now rewrite getitem_setitem_other ..]. }
    rewrite P2, S2, (create_hist_plot_one_again _ _ _ _ _ _ NK Hh), Hfan, Hst,
      Hsp in C.
    exact C.
  - intros self path oc mc now d doc0 doc1 doc h' NK NM NR NO R.
    destruct (create_report_two_returns _ _ _ _ _ _ _ _ _ R)
      as (fig & d1 & s & h & d2 & mat & rat & oat & Hp & Hs & Hh & Hmat & Hrat
          & Hoat & -> & ->).
    cbn [df].
    destruct (create_hist_plot_two_returns _ _ _ _ _ _ Hh) as (fi & G & E).
    pose proof (create_report_two_cases self path oc mc now d2 doc1) as C.
    cbv zeta in C.
    assert (P2 : FaultCodeTwoReport.create_plot self oc d2 = (Ok fig, d2))
      by (rewrite E; now apply (create_plot_after_hist self oc d)).
    assert (S2 : FaultCodeTwoReport.summarize_fault_times self d2 oc = Ok s).
    { rewrite <- Hs. apply summarize_two_ext; rewrite E;
        [reflexivity | now rewrite getitem_setitem_other ..]. }
    rewrite P2, S2, (create_hist_plot_two_again _ _ _ _ _ _ NK Hh), Hmat, Hrat,
      Hoat in C.
    exact C.
Qed.

(** The sample report on two rows, and the same report once more. *)
Lemma report_again_same_document_witness :
  exists doc h',
    FaultCodeOneReport.create_report fc1 "fc1.docx" None None "now"
      {| df := df_second_flagged; document := [] |} = (Ok doc, h')
    /\ FaultCodeOneReport.create_report fc1 "fc1.docx" None None "now"
         {| df := df h'; document := doc |} = (Ok doc, h').
Proof.
  destruct (create_report_one_total fc1 "fc1.docx" None None "now"
              df_second_flagged [] (SBool [false; true]) (SInt [0; 1])
              (SFloat (repeat (Fin 1) 2)) (SFloat (repeat (Fin 80) 2))
              (SFloat (repeat (Fin 1) 2))
              eq_refl eq_refl eq_refl eq_refl eq_refl)
    as (fig & s & h & fan & st & sp & _ & _ & _ & _ & _ & R).
  do 2 eexists. split; [exact R|].
  destruct report_again_same_document as [H _].
  apply (H fc1 "fc1.docx" None None "now" df_second_flagged []);
    [discriminate | discriminate | discriminate | exact R].
Defined.

(** X12: the histograms can be drawn again.  When the flag column does not
    bear the name of the hour-of-day column, a second call of
    [create_hist_plot] on the dataframe that a first call has left returns
    the same figure and leaves the dataframe as it is.  Both report
    classes. *)
Theorem histogram_again_changes_nothing :
  (forall self oc dc d h d2,
      default "fc1_flag" oc <> "hour_of_the_day_fc1" ->
      FaultCodeOneReport.create_hist_plot self oc dc d = (Ok h, d2) ->
      FaultCodeOneReport.create_hist_plot self oc dc d2 = (Ok h, d2))
  /\ (forall self oc mc d h d2,
         default "fc2_flag" oc <> "hour_of_the_day_fc2" ->
         FaultCodeTwoReport.create_hist_plot self oc mc d = (Ok h, d2) ->
         FaultCodeTwoReport.create_hist_plot self oc mc d2 = (Ok h, d2)).
Proof.
  split.
  - intros. eapply create_hist_plot_one_again; eassumption.
  - intros. eapply create_hist_plot_two_again; eassumption.
Qed.

Lemma histogram_again_changes_nothing_witness :
  exists h d2,
    FaultCodeTwoReport.create_hist_plot fc2 None None df_second_flagged
    = (Ok h, d2)
    /\ FaultCodeTwoReport.create_hist_plot fc2 None None d2 = (Ok h, d2).
Proof.
  destruct histogram_again_changes_nothing as [_ H].
  do 2 eexists. split; [reflexivity|].
  apply (H fc2 None None df_second_flagged); [discriminate | reflexivity].
Defined.

(** * The dataframe after a report *)

Section FramesTwo.

(** What [create_plot] leaves of the dataframe: as it was, or with the
    flag column replaced by its cast to integers. *)
Lemma create_plot_frame (self : FaultCodeTwoReport.t)
  (oc : option string) (d d1 : DataFrame) (r : result Figure) :
  FaultCodeTwoReport.create_plot self oc d = (r, d1) ->
  d1 = d
  \/ exists flag fi,
      getitem d (default "fc2_flag" oc) = Ok flag
      /\ astype_int flag = Ok fi
      /\ d1 = setitem d (default "fc2_flag" oc) fi.
Proof.
  intro R. pose proof (create_plot_cases self oc d) as C.
  cbv zeta in C. rewrite R in C.
  destruct (getitem d (default "fc2_flag" oc)) as [flag|e];
    [|left; congruence].
  destruct (astype_int flag) as [fi|e] eqn:A; [|left; congruence].
  right. exists flag, fi. repeat split; try assumption.
  destruct (getitem _ (FaultCodeTwoReport.mat_col self)); [|congruence].
  destruct (getitem _ (FaultCodeTwoReport.rat_col self)); [|congruence].
  destruct (getitem _ (FaultCodeTwoReport.oat_col self)); [|congruence].
  destruct C as [fig C]. congruence.
Qed.

Lemma create_hist_plot_two_frame (self : FaultCodeTwoReport.t)
  (oc mc : option string) (d d2 : DataFrame) (r : result Figure) :
  FaultCodeTwoReport.create_hist_plot self oc mc d = (r, d2) ->
  d2 = d \/ exists v, d2 = setitem d "hour_of_the_day_fc2" v.
Proof.
  intro R. destruct (getitem d (default "fc2_flag" oc)) as [flag|e] eqn:G.
  - rewrite (create_hist_plot_two self oc mc d flag G) in R.
    right. eexists. injection R as _ <-. reflexivity.
  - rewrite (create_hist_plot_two_raise self oc mc d e G) in R.
    left. congruence.
Qed.

(** The dataframe a run of [create_report] of fault code 2 leaves is that
    of its two plots. *)
Lemma create_report_two_df (self : FaultCodeTwoReport.t) (path : string)
  (oc mc : option string) (now : string) (d : DataFrame) (doc0 : Document)
  (r : result Document) (h' : heap) :
  FaultCodeTwoReport.create_report self path oc mc now
    {| df := d; document := doc0 |} = (r, h') ->
  exists r1 d1,
    FaultCodeTwoReport.create_plot self oc d = (r1, d1)
    /\ (df h' = d1
        \/ exists r2,
            FaultCodeTwoReport.create_hist_plot self oc mc d1 = (r2, df h')).
Proof.
  intro R. pose proof (create_report_two_cases self path oc mc now d doc0) as C.
  cbv zeta in C. rewrite R in C. unfold aborted, returned in C. cbn [snd] in C.
  destruct (FaultCodeTwoReport.create_plot self oc d) as [[fig|e] d1];
    [|exists (Raise e), d1; split; [reflexivity | left; apply C]].
  exists (Ok fig), d1. split; [reflexivity|].
  destruct (FaultCodeTwoReport.summarize_fault_times self d1 oc) as [s|e];
    [|left; apply C].
  right.
  destruct (FaultCodeTwoReport.create_hist_plot self oc mc d1) as [[h|e] d2];
    [|exists (Raise e); f_equal; symmetry; apply C].
  exists (Ok h). f_equal. symmetry.
  destruct (getitem d2 (FaultCodeTwoReport.mat_col self)); [|apply C].
  destruct (getitem d2 (FaultCodeTwoReport.rat_col self)); [|apply C].
  destruct (getitem d2 (FaultCodeTwoReport.oat_col self)); [|apply C].
  injection C as _ ->. reflexivity.
Qed.

End FramesTwo.

(** X13: the dataframe that a returned report leaves to the caller is the
    one it was given with the flag column replaced by its cast to integers
    and, after that, the hour-of-day column assigned: the hour of the
    timestamp on the rows whose flag is 1, a missing value on the others.
    Both report classes. *)
Theorem returned_report_dataframe :
  (forall self path oc dc now d doc0 doc h',
      FaultCodeOneReport.create_report self path oc dc now
        {| df := d; document := doc0 |} = (Ok doc, h') ->
      exists flag fi,
        getitem d (default "fc1_flag" oc) = Ok flag
        /\ astype_int flag = Ok fi
        /\ df h'
           = setitem (setitem d (default "fc1_flag" oc) fi)
               "hour_of_the_day_fc1" (hour_where (index d) (eq_1 fi))
        /\ document h' = doc)
  /\ (forall self path oc mc now d doc0 doc h',
         FaultCodeTwoReport.create_report self path oc mc now
           {| df := d; document := doc0 |} = (Ok doc, h') ->
         exists flag fi,
           getitem d (default "fc2_flag" oc) = Ok flag
           /\ astype_int flag = Ok fi
           /\ df h'
              = setitem (setitem d (default "fc2_flag" oc) fi)
                  "hour_of_the_day_fc2" (hour_where (index d) (eq_1 fi))
           /\ document h' = doc).
Proof.
  split.
  - intros self path oc dc now d doc0 doc h' R.
    destruct (create_report_one_returns _ _ _ _ _ _ _ _ _ R)
      as (fig & d1 & s & h & d2 & fan & st & sp & Hp & _ & Hh & _ & _ & _
          & _ & ->).
    destruct (create_fan_plot_returns _ _ _ _ _ Hp)
      as (flag & fi & st1 & fan1 & Hf & Hc & -> & _ & _).
    destruct (create_hist_plot_one_returns _ _ _ _ _ _ Hh) as (fi' & G & ->).
    rewrite getitem_setitem_same in G. injection G as <-.
    exists flag, fi. repeat split; assumption.
  - intros self path oc mc now d doc0 doc h' R.
    destruct (create_report_two_returns _ _ _ _ _ _ _ _ _ R)
      as (fig & d1 & s & h & d2 & mat & rat & oat & Hp & _ & Hh & _ & _ & _
          & _ & ->).
    destruct (create_plot_returns _ _ _ _ _ Hp)
      as (flag & fi & m1 & r1 & o1 & Hf & Hc & -> & _ & _ & _).
    destruct (create_hist_plot_two_returns _ _ _ _ _ _ Hh) as (fi' & G & ->).
    rewrite getitem_setitem_same in G. injection G as <-.
    exists flag, fi. repeat split; assumption.
Qed.

(** The sample reports of fault code 2: on two rows with the second one
    flagged the hour-of-day column is a column of floats; on one row, which
    is flagged, it keeps the integers of the index. *)
Lemma returned_report_dataframe_witness :
  (exists doc h',
      FaultCodeTwoReport.create_report fc2 "fc2.docx" None None "now"
        {| df := df_second_flagged; document := [] |} = (Ok doc, h')
      /\ lookup "fc2_flag" (columns (df h')) = Some (SInt [0; 1])
      /\ lookup "hour_of_the_day_fc2" (columns (df h'))
         = Some (SFloat [NaN; Fin 1]))
  /\ (exists doc h',
         FaultCodeTwoReport.create_report fc2 "fc2.docx" None None "now"
           {| df := df_single; document := [] |} = (Ok doc, h')
         /\ lookup "hour_of_the_day_fc2" (columns (df h')) = Some (SInt [1])).
Proof.
  destruct returned_report_dataframe as [_ H]. split.
  - destruct (create_report_two_total fc2 "fc2.docx" None None "now"
                df_second_flagged [] (SBool [false; true]) (SInt [0; 1])
                (SFloat (repeat (Fin 60) 2)) (SFloat (repeat (Fin 70) 2))
                (SFloat (repeat (Fin 50) 2))
                eq_refl eq_refl eq_refl eq_refl eq_refl)
      as (fig & s & h & mat & rat & oat & _ & _ & _ & _ & R).
    do 2 eexists. split; [exact R|].
    destruct (H fc2 "fc2.docx" None None "now" df_second_flagged [] _ _ R)
      as (flag & fi & Hf & Hc & E & _).
    injection Hf as <-. injection Hc as <-. rewrite E.
    split; reflexivity.
  - destruct (create_report_two_total fc2 "fc2.docx" None None "now"
                df_single [] (SInt [1]) (SInt [1])
                (SFloat [Fin 60]) (SFloat [Fin 70]) (SFloat [Fin 50])
                eq_refl eq_refl eq_refl eq_refl eq_refl)
      as (fig & s & h & mat & rat & oat & _ & _ & _ & _ & R).
    do 2 eexists. split; [exact R|].
    destruct (H fc2 "fc2.docx" None None "now" df_single [] _ _ R)
      as (flag & fi & Hf & Hc & E & _).
    injection Hf as <-. injection Hc as <-. rewrite E.
    reflexivity.
Defined.

(** X14: whatever the outcome of [create_report] of fault code 2, the
    caller's dataframe keeps its index and every column other than the flag
    column and the hour-of-day column of fault code 2. *)
Theorem report_two_leaves_other_columns
  (self : FaultCodeTwoReport.t) (path : string) (oc mc : option string)
  (now : string) (d : DataFrame) (doc0 : Document) (r : result Document)
  (h' : heap) :
  FaultCodeTwoReport.create_report self path oc mc now
    {| df := d; document := doc0 |} = (r, h') ->
  same_except [default "fc2_flag" oc; "hour_of_the_day_fc2"] d (df h').
Proof.
  intro R.
  destruct (create_report_two_df _ _ _ _ _ _ _ _ _ R) as (r1 & d1 & Hp & Hd).
  set (keys := [default "fc2_flag" oc; "hour_of_the_day_fc2"]).
  assert (K1 : In (default "fc2_flag" oc) keys) by now left.
  assert (K2 : In "hour_of_the_day_fc2" keys) by (right; now left).
  assert (S1 : same_except keys d d1).
  { destruct (create_plot_frame _ _ _ _ _ Hp) as [->|(flag & fi & _ & _ & ->)].
    - apply same_except_refl.
    - apply same_except_setitem; auto using same_except_refl. }
  destruct Hd as [E|[r2 Hh]].
  - now rewrite E.
  - destruct (create_hist_plot_two_frame _ _ _ _ _ _ Hh) as [E|[v E]];
      rewrite E; [exact S1 | now apply same_except_setitem].
Qed.

(** The report of fault code 2 that stops for want of a column. *)
Lemma report_two_leaves_other_columns_witness :
  exists r h',
    FaultCodeTwoReport.create_report fc2 "fc2.docx" None None "now"
      {| df := df_no_mat; document := [] |} = (r, h')
    /\ same_except ["fc2_flag"; "hour_of_the_day_fc2"] df_no_mat (df h').
Proof.
  destruct (FaultCodeTwoReport.create_report fc2 "fc2.docx" None None "now"
              {| df := df_no_mat; document := [] |}) as [r h'] eqn:R.
  exists r, h'. split; [reflexivity|].
  exact (report_two_leaves_other_columns _ _ _ _ _ _ _ _ _ R).
Defined.

(** * Dataframes without rows, and the hour-of-day column *)

Section NoRows.

Lemma astype_int_nil (s : Series) :
  size s = 0%nat -> astype_int s = Ok (SInt []).
Proof.
  destruct s as [l|l|l]; cbn; intro H; apply length_zero_iff_nil in H;
    subst; reflexivity.
Qed.

(** Columns without rows stay so under an assignment of a column without
    rows. *)
Lemma size_getitem_setitem (d : DataFrame) (k c : string) (v s s' : Series) :
  getitem d c = Ok s -> size s = 0%nat -> size v = 0%nat ->
  getitem (setitem d k v) c = Ok s' -> size s' = 0%nat.
Proof.
  intros G Z V G'.
  destruct (getitem_setitem_inv _ _ _ _ _ G') as [[_ ->]|[_ E]];
    [exact V | congruence].
Qed.

Lemma size_hour_where_nil (cond : list bool) :
  size (hour_where [] cond) = 0%nat.
Proof. unfold hour_where. now destruct (forallb (fun c => c) cond). Qed.

Lemma mean_no_rows (s : Series) : size s = 0%nat -> mean s = NaN.
Proof. intro H. unfold mean. now rewrite values_nil. Qed.

Lemma std_no_rows (s : Series) : size s = 0%nat -> std_eq_0 s = false.
Proof.
  intro H. apply std_nan_not_0, nanvar_short. rewrite H. apply Nat.le_0_l.
Qed.

End NoRows.

(** X15: a dataframe without rows is no error.  Both reports are returned:
    the totals are 0, the percentages are NaN, the histogram has its ten
    bars at 0, there is no commentary, and the suggestions are the ones of
    the comparisons that fail on NaN: low fault percentage and pressure
    reset detected for fault code 1, sensors within calibration for fault
    code 2. *)
Theorem report_on_no_rows (d : DataFrame) (flag : Series) :
  index d = [] ->
  size flag = 0%nat ->
  (forall self path oc dc now doc0 c1 c2 c3,
      getitem d (default "fc1_flag" oc) = Ok flag ->
      getitem d (FaultCodeOneReport.duct_static_col self) = Ok c1 ->
      getitem d (FaultCodeOneReport.supply_vfd_speed_col self) = Ok c2 ->
      getitem d (FaultCodeOneReport.duct_static_setpoint_col self) = Ok c3 ->
      size c3 = 0%nat ->
      exists fig s h fan st sp h',
        FaultCodeOneReport.create_report self path oc dc now
          {| df := d; document := doc0 |}
        = (Ok (LayoutOne.report fig s h fan st sp now), h')
        /\ SummaryOne.total_hours s = td_truediv 0 Timedelta_hours_1
        /\ SummaryOne.hours_fc1_mode s = td_truediv 0 Timedelta_hours_1
        /\ SummaryOne.percent_true s = NaN
        /\ SummaryOne.percent_false s = NaN
        /\ map bars (fig_axes h) = [repeat 0 10]
        /\ LayoutOne.commentary_part s = [spacer]
        /\ LayoutOne.suggestions_part s sp
           = [ Heading "Suggestions based on data analysis" 2;
               bullet [Str FaultCodeOneReport.low_text];
               bullet [Str FaultCodeOneReport.reset_text] ])
  /\ (forall self path oc mc now doc0 c1 c2 c3,
         getitem d (default "fc2_flag" oc) = Ok flag ->
         getitem d (FaultCodeTwoReport.mat_col self) = Ok c1 ->
         getitem d (FaultCodeTwoReport.rat_col self) = Ok c2 ->
         getitem d (FaultCodeTwoReport.oat_col self) = Ok c3 ->
         exists fig s h mat rat oat h',
           FaultCodeTwoReport.create_report self path oc mc now
             {| df := d; document := doc0 |}
           = (Ok (LayoutTwo.report fig s h mat rat oat now), h')
           /\ SummaryTwo.total_hours s = td_truediv 0 Timedelta_hours_1
           /\ SummaryTwo.hours_fc2_mode s = td_truediv 0 Timedelta_hours_1
           /\ SummaryTwo.percent_true s = NaN
           /\ SummaryTwo.percent_false s = NaN
           /\ map bars (fig_axes h) = [repeat 0 10]
           /\ LayoutTwo.commentary_part s = [spacer]
           /\ LayoutTwo.suggestions_part s
              = [ Heading "Suggestions based on data analysis" 2;
                  bullet
                    [Str FaultCodeTwoReport.within_calibration_text] ]).
Proof.
  intros I Z. pose proof (astype_int_nil flag Z) as A. split.
  - intros self path oc dc now doc0 c1 c2 c3 Hf H1 H2 H3 Z3.
    destruct (create_report_one_total self path oc dc now d doc0 flag
                (SInt []) c1 c2 c3 Hf A H1 H2 H3)
      as (fig & s & h & fan & st & sp & Hp & Hfi & Hs & Hh & Hsp & R).
    exists fig, s, h, fan, st, sp. eexists. split; [exact R|].
    destruct (getitem_setitem_present d (default "fc1_flag" oc) _ (SInt [])
                _ H1) as [st1 Hst1].
    rewrite (summarize_one self _ oc (SInt []) st1 Hfi Hst1) in Hs.
    injection Hs as <-.
    rewrite (create_hist_plot_one self oc dc _ (SInt []) Hfi) in Hh.
    injection Hh as <-.
    assert (Zsp : size sp = 0%nat).
    { destruct (getitem_setitem_present d (default "fc1_flag" oc) _
                  (SInt []) _ H3) as [sp1 Hsp1].
      assert (Z1 : size sp1 = 0%nat)
        by exact (size_getitem_setitem d _ _ (SInt []) c3 sp1 H3 Z3 eq_refl
                    Hsp1).
      rewrite I in Hsp.
      exact (size_getitem_setitem _ _ _ (hour_where [] (eq_1 (SInt []))) sp1
               sp Hsp1 Z1 eq_refl Hsp). }
    unfold LayoutOne.commentary_part, LayoutOne.suggestions_part.
    cbn [SummaryOne.total_hours SummaryOne.hours_fc1_mode
         SummaryOne.percent_true SummaryOne.percent_false
         SummaryOne.flag_true_duct_static fst snd].
    change (index (setitem d (default "fc1_flag" oc) (SInt [])))
      with (index d).
    unfold mean, Series_where. cbn [values].
    rewrite I, (std_no_rows sp Zsp), !where_nil_r.
    repeat split; reflexivity.
  - intros self path oc mc now doc0 c1 c2 c3 Hf H1 H2 H3.
    destruct (create_report_two_total self path oc mc now d doc0 flag
                (SInt []) c1 c2 c3 Hf A H1 H2 H3)
      as (fig & s & h & mat & rat & oat & Hp & Hfi & Hs & Hh & R).
    exists fig, s, h, mat, rat, oat. eexists. split; [exact R|].
    destruct (getitem_setitem_present d (default "fc2_flag" oc) _ (SInt [])
                _ H1) as [m1 Hm1].
    destruct (getitem_setitem_present d (default "fc2_flag" oc) _ (SInt [])
                _ H2) as [r1 Hr1].
    destruct (getitem_setitem_present d (default "fc2_flag" oc) _ (SInt [])
                _ H3) as [o1 Ho1].
    rewrite (summarize_two self _ oc (SInt []) m1 o1 r1 Hfi Hm1 Ho1 Hr1) in Hs.
    injection Hs as <-.
    rewrite (create_hist_plot_two self oc mc _ (SInt []) Hfi) in Hh.
    injection Hh as <-.
    unfold LayoutTwo.commentary_part, LayoutTwo.suggestions_part.
    cbn [SummaryTwo.total_hours SummaryTwo.hours_fc2_mode
         SummaryTwo.percent_true SummaryTwo.percent_false
         SummaryTwo.flag_true_mat fst snd].
    change (index (setitem d (default "fc2_flag" oc) (SInt [])))
      with (index d).
    unfold mean, Series_where. cbn [values].
    rewrite I, !where_nil_r.
    repeat split; reflexivity.
Qed.

(** The sample dataframe without rows. *)
Lemma report_on_no_rows_witness :
  exists doc h',
    FaultCodeOneReport.create_report fc1 "fc1.docx" None None "now"
      {| df := df_empty; document := [] |} = (Ok doc, h')
    /\ In (bullet [Str FaultCodeOneReport.low_text]) doc
    /\ In (bullet [Str FaultCodeOneReport.reset_text]) doc.
Proof.
  destruct (report_on_no_rows df_empty (SInt []) eq_refl eq_refl) as [H _].
  destruct (H fc1 "fc1.docx" None None "now" [] (SFloat []) (SFloat [])
              (SFloat []) eq_refl eq_refl eq_refl eq_refl eq_refl)
    as (fig & s & h & fan & st & sp & h' & R & _ & _ & _ & _ & _ & _ & G).
  exists (LayoutOne.report fig s h fan st sp "now"), h'.
  split; [exact R|]. unfold LayoutOne.report. rewrite G.
  split; rewrite !in_app_iff; do 6 right; left; cbn; auto.
Defined.

(** * The hour-of-day column, and the figures of the summary *)

Section Cells.

Lemma nth_error_where (l : list float) (cond : list bool) (i : nat) :
  nth_error (where_ l cond) i
  = match nth_error l i, nth_error cond i with
    | Some x, Some c => Some (if c then x else NaN)
    | _, _ => None
    end.
Proof.
  revert cond i; induction l as [|x r IH]; intros [|c cs] [|i];
    try reflexivity.
  - cbn. now destruct (nth_error r i).
  - cbn [where_ nth_error]. apply IH.
Qed.

Lemma In_where (l : list float) (cond : list bool) (x : float) :
  In x (where_ l cond) -> x = NaN \/ In x l.
Proof.
  revert cond; induction l as [|y r IH]; intros [|c cs]; try contradiction.
  cbn [where_]. intros [E|H].
  - destruct c; [right; now left | now left].
  - destruct (IH cs H) as [N|I]; [now left | right; now right].
Qed.

Local Open Scope Q_scope.





End Cells.

(** X16: the hour-of-day column that a histogram leaves in the dataframe
    has, row by row, the hour of the timestamp where the flag is 1 and a
    missing value where it is not; every cell of it is missing or an hour
    from 0 to 23.  Both report classes. *)
Theorem hour_of_day_column_cells :
  (forall self oc dc d h d2,
      FaultCodeOneReport.create_hist_plot self oc dc d = (Ok h, d2) ->
      exists flag col,
        getitem d (default "fc1_flag" oc) = Ok flag
        /\ getitem d2 "hour_of_the_day_fc1" = Ok col
        /\ (forall i t b,
               nth_error (index d) i = Some t ->
               nth_error (eq_1 flag) i = Some b ->
               nth_error (values col) i
               = Some (if b then of_int (hour t) else NaN))
        /\ (forall x, In x (values col) ->
               x = NaN \/ exists z, 0 <= z <= 23 /\ x = of_int z))
  /\ (forall self oc mc d h d2,
         FaultCodeTwoReport.create_hist_plot self oc mc d = (Ok h, d2) ->
         exists flag col,
           getitem d (default "fc2_flag" oc) = Ok flag
           /\ getitem d2 "hour_of_the_day_fc2" = Ok col
           /\ (forall i t b,
                  nth_error (index d) i = Some t ->
                  nth_error (eq_1 flag) i = Some b ->
                  nth_error (values col) i
                  = Some (if b then of_int (hour t) else NaN))
           /\ (forall x, In x (values col) ->
                  x = NaN \/ exists z, 0 <= z <= 23 /\ x = of_int z)).
Proof.
  assert (P : forall idx cond,
             (forall i t b,
                 nth_error idx i = Some t ->
                 nth_error cond i = Some b ->
                 nth_error (values (hour_where idx cond)) i
                 = Some (if b then of_int (hour t) else NaN))
             /\ (forall x, In x (values (hour_where idx cond)) ->
                    x = NaN \/ exists z, 0 <= z <= 23 /\ x = of_int z)).
  { intros idx cond. unfold hour_where.
    destruct (forallb (fun c => c) cond) eqn:A; cbn [values]; split.
    - intros i t b Ht Hb. rewrite forallb_forall in A.
      rewrite (A b (nth_error_In _ _ Hb)), map_map, nth_error_map, Ht.
      reflexivity.
    - intros x H. right. rewrite map_map in H. apply in_map_iff in H.
      destruct H as (t & <- & _).
      exists (hour t). split; [apply hour_range | reflexivity].
    - intros i t b Ht Hb. rewrite nth_error_where, nth_error_map, Ht, Hb.
      reflexivity.
    - intros x H. destruct (In_where _ _ _ H) as [N|I]; [now left|].
      right. apply in_map_iff in I. destruct I as (t & <- & _).
      exists (hour t). split; [apply hour_range | reflexivity]. }
  split.
  - intros self oc dc d h d2 R.
    destruct (create_hist_plot_one_returns _ _ _ _ _ _ R) as (flag & G & ->).
    exists flag, (hour_where (index d) (eq_1 flag)).
    split; [exact G|]. split; [apply getitem_setitem_same | apply P].
  - intros self oc mc d h d2 R.
    destruct (create_hist_plot_two_returns _ _ _ _ _ _ R) as (flag & G & ->).
    exists flag, (hour_where (index d) (eq_1 flag)).
    split; [exact G|]. split; [apply getitem_setitem_same | apply P].
Qed.

Lemma hour_of_day_column_cells_witness :
  exists h d2,
    FaultCodeOneReport.create_hist_plot fc1 None None df_second_flagged
    = (Ok h, d2)
    /\ exists col,
        getitem d2 "hour_of_the_day_fc1" = Ok col
        /\ nth_error (values col) 1 = Some (of_int 1).
Proof.
  destruct hour_of_day_column_cells as [H _].
  do 2 eexists. split; [reflexivity|].
  destruct (H fc1 None None df_second_flagged _ _ eq_refl)
    as (flag & col & Hf & Hc & Hn & _).
  exists col. split; [exact Hc|]. injection Hf as <-.
  exact (Hn 1%nat hour_ns true eq_refl eq_refl).
Defined.





(** * What the reports show, and what the functions read *)

Section CallersData.


End CallersData.







(** X22: a histogram is made of the index and of the rows whose flag is 1,
    and of nothing else: two dataframes with the same index and flag
    columns that are 1 on the same rows give the same figure, whatever the
    report object, the sensor column named in the call and the other
    columns are.  Both report classes. *)
Theorem histogram_reads_index_and_flag_only (d d' : DataFrame) :
  index d' = index d ->
  (forall self self' oc dc dc' flag flag',
      getitem d (default "fc1_flag" oc) = Ok flag ->
      getitem d' (default "fc1_flag" oc) = Ok flag' ->
      eq_1 flag' = eq_1 flag ->
      fst (FaultCodeOneReport.create_hist_plot self' oc dc' d')
      = fst (FaultCodeOneReport.create_hist_plot self oc dc d))
  /\ (forall self self' oc mc mc' flag flag',
         getitem d (default "fc2_flag" oc) = Ok flag ->
         getitem d' (default "fc2_flag" oc) = Ok flag' ->
         eq_1 flag' = eq_1 flag ->
         fst (FaultCodeTwoReport.create_hist_plot self' oc mc' d')
         = fst (FaultCodeTwoReport.create_hist_plot self oc mc d)).
Proof.
  intro I. split.
  - intros self self' oc dc dc' flag flag' G G' E.
    rewrite (create_hist_plot_one self oc dc d flag G),
      (create_hist_plot_one self' oc dc' d' flag' G').
    cbn [fst]. now rewrite I, E.
  - intros self self' oc mc mc' flag flag' G G' E.
    rewrite (create_hist_plot_two self oc mc d flag G),
      (create_hist_plot_two self' oc mc' d' flag' G').
    cbn [fst]. now rewrite I, E.
Qed.

(** A boolean flag column and an integer one that are 1 on the same row,
    in dataframes with other columns. *)
Lemma histogram_reads_index_and_flag_only_witness :
  fst (FaultCodeOneReport.create_hist_plot fc1 None (Some "static")
         df_no_setpoint)
  = fst (FaultCodeOneReport.create_hist_plot fc1 None None df_second_flagged).
Proof.
  destruct (histogram_reads_index_and_flag_only df_second_flagged
              df_no_setpoint eq_refl) as [H _].
  exact (H fc1 fc1 None None (Some "static") (SBool [false; true])
           (SInt [0; 1]) eq_refl eq_refl eq_refl).
Defined.
